(** * BIP-0137 signature verification: a shallow embedding of package [verify]

    The Go package [verify] (files [logger.go], [signature.go], [pubkey.go])
    wraps the BitonicNL message verifier with input validation, header
    diagnostics, leveled logging and a context-bounded wrapper.

    The embedding keeps the shape of the Go code:
    - Go [string] ([a byte sequence]) is [string]; [[]byte] is [list byte];
    - a [(bool, error)] result is [bool * option error], [None] being [nil];
    - the two package globals [currentLogLevel] and [Logger], together with
      the record of calls made to code outside the package, form the state
      that every function threads (a small state monad);
    - libraries outside the repository (the BitonicNL verifier, btcutil,
      btcec) are section variables: a theorem stated over them holds for
      any behaviour of theirs. Where a property rests on what the verifier
      does (it rejects a wrong length, it reports a mismatch as an error),
      the verifier is [BitonicNL.VerifyWithChain], with the address check
      and the cryptography as parameters;
    - [Logger] is a sink that is there; where its absence matters, module
      [NilLogger] embeds the address-based functions once more over a
      logger that may be nil and runs that may panic. *)

From Stdlib Require Import String Ascii List NArith ZArith Bool Lia.
From Stdlib.Strings Require Import Byte.
From Stdlib Require Import DecimalString.
Import ListNotations.

Local Open Scope string_scope.
Local Open Scope list_scope.

(** ** Errors *)

(** Go [error] values that the package creates, wraps or receives.
    [nil] is [None] of [option error]. *)
Inductive error : Type :=
  (* var ( ... ) block of signature.go: errors.New sentinels *)
  | ErrVerificationTimeout
  | ErrInvalidSignature
  | ErrEmptyAddress
  | ErrEmptyMessage
  | ErrEmptySignature
  (* fmt.Errorf(msg) without verbs *)
  | Errorf (msg : string)
  (* fmt.Errorf(prefix ++ ": %w", err) *)
  | Errorf_w (prefix : string) (err : error)
  (* fmt.Errorf("%w: %v", err, v): wraps [err], only prints [v] *)
  | Errorf_w_v (err : error) (v : error)
  (* encoding/base64: CorruptInputError *)
  | CorruptInputError
  (* package context *)
  | context_DeadlineExceeded
  | context_Canceled
  (* any error value produced by a library outside the repository *)
  | ExternalError (msg : string).

Definition outcome : Type := bool * option error.

(** [err.Error()] *)
Fixpoint Error (e : error) : string :=
  match e with
  | ErrVerificationTimeout => "signature verification timed out"
  | ErrInvalidSignature => "invalid signature"
  | ErrEmptyAddress => "empty bitcoin address"
  | ErrEmptyMessage => "empty message"
  | ErrEmptySignature => "empty signature"
  | Errorf msg => msg
  | Errorf_w prefix err => prefix ++ ": " ++ Error err
  | Errorf_w_v err v => Error err ++ ": " ++ Error v
  | CorruptInputError => "illegal base64 data"
  | context_DeadlineExceeded => "context deadline exceeded"
  | context_Canceled => "context canceled"
  | ExternalError msg => msg
  end.

Fixpoint error_eqb (a b : error) : bool :=
  match a, b with
  | ErrVerificationTimeout, ErrVerificationTimeout => true
  | ErrInvalidSignature, ErrInvalidSignature => true
  | ErrEmptyAddress, ErrEmptyAddress => true
  | ErrEmptyMessage, ErrEmptyMessage => true
  | ErrEmptySignature, ErrEmptySignature => true
  | Errorf m, Errorf m' => String.eqb m m'
  | Errorf_w p e, Errorf_w p' e' => String.eqb p p' && error_eqb e e'
  | Errorf_w_v e v, Errorf_w_v e' v' => error_eqb e e' && error_eqb v v'
  | CorruptInputError, CorruptInputError => true
  | context_DeadlineExceeded, context_DeadlineExceeded => true
  | context_Canceled, context_Canceled => true
  | ExternalError m, ExternalError m' => String.eqb m m'
  | _, _ => false
  end.

(** [errors.Is(err, target)]: [err] or something it wraps through [%w]. *)
Fixpoint errors_Is (err target : error) : bool :=
  error_eqb err target ||
  match err with
  | Errorf_w _ inner => errors_Is inner target
  | Errorf_w_v inner _ => errors_Is inner target
  | _ => false
  end.

(** ** logger.go *)

(** [type LogLevel int]: any integer can be set; the named levels are the
    [iota] constants. *)
Definition LogLevel : Type := Z.

Definition LogLevelNone : LogLevel := 0%Z.
Definition LogLevelError : LogLevel := 1%Z.
Definition LogLevelInfo : LogLevel := 2%Z.
Definition LogLevelDebug : LogLevel := 3%Z.
Definition LogLevelTrace : LogLevel := 4%Z.

(** [a >= b] on levels. *)
Definition LogLevel_ge (a b : LogLevel) : bool := (b <=? a)%Z.

(** An argument of a [Printf]-style call. Durations and instants come from
    the clock and are kept opaque. *)
Inductive Arg : Type :=
  | ArgString (s : string)
  | ArgByte (b : byte)
  | ArgBytes (bs : list byte)
  | ArgBool (b : bool)
  | ArgN (n : N)
  | ArgError (e : error)
  | ArgTime.

(** Calls that leave the package (decoding, the BitonicNL verifier, address
    derivation through btcutil) and the call to the one function of the
    package whose file is not at hand: the events of a run. *)
Inductive Call : Type :=
  | CallBase64Decode (s : string)
  | CallVerifyWithChain (address message signature network : string)
  | CallVerify (address message signature : string)
  | CallHash160 (data : list byte)
  | CallNewAddressPubKeyHash (pkHash : list byte) (network : string)
  | CallEnhancedVerify (message signature : string).

(** ** Data of the package and of its collaborators *)

(** [chaincfg.Params], restricted to the fields the package reads. *)
Record Params : Type := mkParams {
  Name : string;
  PubKeyHashAddrID : byte;
  ScriptHashAddrID : byte
}.

(** [chaincfg.MainNetParams]: name and prefixes of Bitcoin mainnet. *)
Definition MainNetParams : Params :=
  mkParams "mainnet" x00 x05.

(** [SignedMessage] of signature.go. *)
Record SignedMessage : Type := mkSignedMessage {
  Address : string;
  Message : string;
  Signature : string
}.

(** [verifier.SignedMessage] of the BitonicNL package: same three fields. *)
Record verifier_SignedMessage : Type := mkVerifierSignedMessage {
  verifier_Address : string;
  verifier_Message : string;
  verifier_Signature : string
}.

(** ** encoding/base64: [StdEncoding.DecodeString]

    Standard alphabet, padding required, carriage returns and line feeds
    skipped, no check of the unused trailing bits (non-strict mode). *)
Module base64.

Definition value (c : ascii) : option N :=
  let n := N_of_ascii c in
  (if (65 <=? n) && (n <=? 90) then Some (n - 65)
   else if (97 <=? n) && (n <=? 122) then Some (n - 71)
   else if (48 <=? n) && (n <=? 57) then Some (n + 4)
   else if n =? 43 then Some 62
   else if n =? 47 then Some 63
   else None)%N.

Definition to_byte (n : N) : byte :=
  match Byte.of_N (n mod 256) with
  | Some b => b
  | None => x00
  end.

Definition is_pad (c : ascii) : bool := (N_of_ascii c =? 61)%N.

Definition is_newline (c : ascii) : bool :=
  ((N_of_ascii c =? 10) || (N_of_ascii c =? 13))%N.

Definition byte0 (v0 v1 : N) : byte :=
  to_byte (N.lor (N.shiftl v0 2) (N.shiftr v1 4)).
Definition byte1 (v1 v2 : N) : byte :=
  to_byte (N.lor (N.shiftl v1 4) (N.shiftr v2 2)).
Definition byte2 (v2 v3 : N) : byte :=
  to_byte (N.lor (N.shiftl v2 6) v3).

(** One quantum of four characters at a time; padding only closes the
    input. *)
Fixpoint decodeQuanta (src : list ascii) : option (list byte) :=
  match src with
  | [] => Some []
  | c0 :: c1 :: c2 :: c3 :: rest =>
      match value c0, value c1 with
      | Some v0, Some v1 =>
          if is_pad c2 then
            if is_pad c3 then
              match rest with [] => Some [byte0 v0 v1] | _ => None end
            else None
          else
            match value c2 with
            | Some v2 =>
                if is_pad c3 then
                  match rest with
                  | [] => Some [byte0 v0 v1; byte1 v1 v2]
                  | _ => None
                  end
                else
                  match value c3 with
                  | Some v3 =>
                      match decodeQuanta rest with
                      | Some tl =>
                          Some (byte0 v0 v1 :: byte1 v1 v2 :: byte2 v2 v3 :: tl)
                      | None => None
                      end
                  | None => None
                  end
            | None => None
            end
      | _, _ => None
      end
  | _ => None
  end.

Definition DecodeString (s : string) : list byte + error :=
  let src := filter (fun c => negb (is_newline c)) (list_ascii_of_string s) in
  match decodeQuanta src with
  | Some bs => inl bs
  | None => inr CorruptInputError
  end.

End base64.

(** ** logger.go: pure helpers *)

Definition hexDigit (n : N) : ascii :=
  (if n <? 10 then ascii_of_N (48 + n) else ascii_of_N (87 + n))%N.

(** [fmt.Sprintf("%02x", b)] *)
Definition Sprintf_02x (b : byte) : string :=
  let n := Byte.to_N b in
  String (hexDigit (n / 16)) (String (hexDigit (n mod 16)) EmptyString).

(** [DumpHex] *)
Definition DumpHex (data : list byte) : string :=
  match data with
  | [] => "<empty>"
  | _ => String.concat " " (map Sprintf_02x data)
  end.

(** [MaskSensitive] *)
Definition MaskSensitive (data : string) : string :=
  if Nat.leb (String.length data) 8 then "****"
  else substring 0 4 data ++ "..." ++ substring (String.length data - 4) 4 data.

(** A decoded header: the three locals of the header block. *)
Record HeaderDetails : Type := mkHeaderDetails {
  recID : N;
  isCompressed : bool;
  addrType : string
}.

(** [context.Context] as the package uses it: [Deadline()] and, once
    [Done()] is closed, [Err()]. *)
Record Context : Type := mkContext {
  ctx_Deadline : option N;
  ctx_Err : error
}.

(** Which case of the [select] fires: the race between [ctx.Done()] and
    the result channel is resolved by the scheduler, not by the package. *)
Inductive SelectCase : Type :=
  | case_ctx_Done
  | case_resultCh.

(** ** Package state and the monad that threads it *)

(** The two globals of logger.go, [currentLogLevel] and [Logger] (any sink
    with a [Printf]), and the calls made so far. *)
Record World (Sink : Type) : Type := mkWorld {
  currentLogLevel : LogLevel;
  Logger : Sink;
  calls : list Call
}.

Arguments mkWorld {Sink} _ _ _.
Arguments currentLogLevel {Sink} _.
Arguments Logger {Sink} _.
Arguments calls {Sink} _.

Definition M (Sink A : Type) : Type := World Sink -> A * World Sink.

Definition ret {Sink A} (a : A) : M Sink A := fun w => (a, w).

Definition bind {Sink A B} (m : M Sink A) (k : A -> M Sink B) : M Sink B :=
  fun w => k (fst (m w)) (snd (m w)).

Definition when {Sink} (b : bool) (m : M Sink unit) : M Sink unit :=
  if b then m else ret tt.

Definition call {Sink} (c : Call) : M Sink unit :=
  fun w => (tt, mkWorld (currentLogLevel w) (Logger w) (calls w ++ [c])).

(** [returns m a cs]: from every state, [m] yields [a], makes exactly the
    calls [cs] and leaves the log level alone. *)
Definition returns {Sink A} (m : M Sink A) (a : A) (cs : list Call) : Prop :=
  forall w,
    fst (m w) = a /\
    calls (snd (m w)) = calls w ++ cs /\
    currentLogLevel (snd (m w)) = currentLogLevel w.

(** [same_result m1 m2]: two computations, over two loggers, yield the same
    value whatever the two states are. *)
Definition same_result {S1 S2 A} (m1 : M S1 A) (m2 : M S2 A) : Prop :=
  forall w1 w2, fst (m1 w1) = fst (m2 w2).

(** What the package hands back once a verifier answered [r]: the error
    wrapped and the verdict forced to [false], or the verdict alone. *)
Definition wrapVerifierAnswer (r : outcome) : outcome :=
  match snd r with
  | Some err => (false, Some (Errorf_w "signature verification error" err))
  | None => (fst r, None)
  end.

(** A result is definitive when it is a verdict without error or an error
    with the verdict [false]. *)
Definition definitive (r : outcome) : bool :=
  match r with
  | (_, None) => true
  | (false, Some _) => true
  | (true, Some _) => false
  end.

(** ** The BitonicNL verifier (package [verifier], outside the repository)

    [VerifyWithChain] as far as the package depends on it. The address is
    checked first; then the signature is decoded and its length checked;
    only then is a key recovered, and the address generated from it is
    compared with the expected one. A mismatch is an error, not
    [(false, nil)]. The address check and the cryptography are parameters. *)
Module BitonicNL.
Section Verifier.

(** [btcutil.DecodeAddress] and the network check that open the function:
    the text of the decoded address, or the error the function returns. *)
Variable checkAddress : string -> Params -> string + error.

(** All that lies between the length check and the comparison (check of
    the recovery flag, hash of the message, recovery of the key, address of
    the flagged kind): the generated address, or the error the function
    returns. *)
Variable generatedAddress : list byte -> string -> Params -> string + error.

(** [%d] of a length. *)
Definition Itoa (n : nat) : string :=
  NilEmpty.string_of_uint (Nat.to_uint n).

Definition wrongLength (n : nat) : error :=
  Errorf ("wrong signature length: " ++ Itoa n ++ " instead of 65").

Definition mismatch (generated expected : string) : error :=
  Errorf ("generated address '" ++ generated
          ++ "' does not match expected address '" ++ expected ++ "'").

Definition VerifyWithChain (sm : verifier_SignedMessage) (net : Params)
    : outcome :=
  match checkAddress (verifier_Address sm) net with
  | inr err => (false, Some err)
  | inl expected =>
      match base64.DecodeString (verifier_Signature sm) with
      | inr err => (false, Some err)
      | inl sigBytes =>
          if negb (Nat.eqb (List.length sigBytes) 65) then
            (false, Some (wrongLength (List.length sigBytes)))
          else
            match generatedAddress sigBytes (verifier_Message sm) net with
            | inr err => (false, Some err)
            | inl generated =>
                if generated =? expected then (true, None)
                else (false, Some (mismatch generated expected))
            end
      end
  end.

(** [Verify] is [VerifyWithChain] on mainnet. *)
Definition Verify (sm : verifier_SignedMessage) : outcome :=
  VerifyWithChain sm MainNetParams.

End Verifier.
End BitonicNL.

(** Does a run derive an address from a key (btcutil)? *)
Definition derives_address (cs : list Call) : bool :=
  existsb (fun c => match c with
                    | CallHash160 _ | CallNewAddressPubKeyHash _ _ => true
                    | _ => false
                    end) cs.

(** ** A concrete instance

    Stand-ins for the collaborators, built from the repository's own test
    vectors and example output, on which the functions can be run: the key,
    address, message and signature of the example programs, and the test
    vector of the package tests. *)
Module Sample.

(** A logger that keeps what it is given. *)
Definition Sink : Type := list (string * list Arg).
Definition Printf (l : Sink) (format : string) (args : list Arg) : Sink :=
  l ++ [(format, args)].

Definition bytes_eqb (a b : list byte) : bool :=
  String.eqb (string_of_list_byte a) (string_of_list_byte b).

(** A key is kept in its compressed serialisation. *)
Definition PublicKey : Type := list byte.
Definition SerializeCompressed (pk : PublicKey) : list byte := pk.

(** 036cb4bc04b262a3a5b5815b4524ce058ecfb6148a26555fbc0eb1b722093c01d1 *)
Definition pubKey : PublicKey :=
  [x03; x6c; xb4; xbc; x04; xb2; x62; xa3; xa5; xb5; x81; x5b; x45; x24;
   xce; x05; x8e; xcf; xb6; x14; x8a; x26; x55; x5f; xbc; x0e; xb1; xb7;
   x22; x09; x3c; x01; xd1].

(** RIPEMD160(SHA256(pubKey)), the payload of [address]. *)
Definition pubKeyHash : list byte :=
  [x7a; x46; xff; xd3; x7a; x23; xfa; x54; x9b; xdd; xc7; x66; x70; xe7;
   xc0; x4f; xa4; xa7; x46; xc3].

Definition address : string := "1C9YVXK12TBeDMJEFFMuTZMHMQgcRAuR1E".
Definition message : string := "Hello, Bitcoin testing!".
Definition signature : string :=
  "IJNFSGvr6aaXsWFHQNJmWL9Jq6t/4IRdIzst8X4Af90JY7C0rStfn1NLgnQt8xWGSxouz5y/G7KWL8dKmt+FpME=".

(** The 65 bytes of [signature]: header byte 0x20, then R and S. *)
Definition headerByte : byte := x20.
Definition signatureRS : list byte :=
  [x93; x45; x48; x6b; xeb; xe9; xa6; x97; xb1; x61; x47; x40; xd2; x66;
   x58; xbf; x49; xab; xab; x7f; xe0; x84; x5d; x23; x3b; x2d; xf1; x7e;
   x00; x7f; xdd; x09; x63; xb0; xb4; xad; x2b; x5f; x9f; x53; x4b; x82;
   x74; x2d; xf3; x15; x86; x4b; x1a; x2e; xcf; x9c; xbf; x1b; xb2; x96;
   x2f; xc7; x4a; x9a; xdf; x85; xa4; xc1].
Definition sigBytes : list byte := headerByte :: signatureRS.

(** The test vector of the package tests. *)
Definition testAddress : string := "194vDb9xwY6XQi5bLa7FRPBewJdUqympZ9".
Definition testSignature : string :=
  "IOeVH/0KqgmS3XKwqCJiwlcHonwxKMQN6fbOW5UsXSDZB4EGCVTXx6c+ZU/Ae5qO94MSBZn2aPOiUsupRIwBaAU=".

Definition Hash160 (data : list byte) : list byte :=
  if bytes_eqb data pubKey then pubKeyHash else repeat x00 20.

Definition AddressPubKeyHash : Type := list byte.

Definition NewAddressPubKeyHash (pkHash : list byte) (net : Params)
    : AddressPubKeyHash + error :=
  if Nat.eqb (List.length pkHash) 20 then inl pkHash
  else inr (ExternalError "pkHash must be 20 bytes").

Definition EncodeAddress (a : AddressPubKeyHash) : string :=
  if bytes_eqb a pubKeyHash then address else "1111111111111111111114oLvT2".

(** The address check on the addresses of the repository: the two signed
    vectors and the address of the README pass on mainnet. *)
Definition checkAddress (a : string) (net : Params) : string + error :=
  if String.eqb (Name net) "mainnet"
     && (String.eqb a address || String.eqb a testAddress
         || String.eqb a "1A1zP1eP5QGefi2DMPTfTL5SLmv7DivfNa")
  then inl a
  else inr (Errorf_w "could not decode address"
                     (ExternalError "decoded address is of unknown format")).

(** Recovery on the two signed vectors: each signature of [message] gives
    back the address of its key. *)
Definition generatedAddress (sig : list byte) (msg : string) (net : Params)
    : string + error :=
  if String.eqb msg message && bytes_eqb sig sigBytes then inl address
  else if String.eqb msg message
          && match base64.DecodeString testSignature with
             | inl t => bytes_eqb sig t
             | inr _ => false
             end
       then inl testAddress
  else inr (ExternalError "could not recover pubkey").

(** The verifier on these. *)
Definition VerifyWithChain : verifier_SignedMessage -> Params -> outcome :=
  BitonicNL.VerifyWithChain checkAddress generatedAddress.

Definition Verify : verifier_SignedMessage -> outcome :=
  BitonicNL.Verify checkAddress generatedAddress.

(** The enhanced implementation on the example of the repository: the
    direct check of the example signature succeeds, any other fails. *)
Definition EnhancedVerify (pk : PublicKey) (msg sig : string)
    : M Sink outcome :=
  fun w =>
    (if bytes_eqb pk pubKey && String.eqb msg message
        && String.eqb sig signature
     then (true, None) else (false, None), w).

(** The package as it starts: level Info, nothing logged, nothing called. *)
Definition world : World Sink := mkWorld LogLevelInfo [] [].

End Sample.

(** ** What a run writes to the logger *)

(** The threshold of a line, read off its tag: [LogError] writes from level
    Error up, [LogInfo] and [LogWarning] from Info, [LogDebug] from Debug,
    [LogTrace] from Trace. *)
Definition tagLevel (format : string) : LogLevel :=
  if prefix "[ERROR] " format then LogLevelError
  else if prefix "[INFO] " format then LogLevelInfo
  else if prefix "[WARNING] " format then LogLevelInfo
  else if prefix "[DEBUG] " format then LogLevelDebug
  else LogLevelTrace.

(** A line is visible at a level that reaches its threshold. *)
Definition visible (level : LogLevel) (line : string * list Arg) : bool :=
  LogLevel_ge level (tagLevel (fst line)).

(** Hand lines to the logger, in order. *)
Definition write {Sink} (Printf : Sink -> string -> list Arg -> Sink)
    (lines : list (string * list Arg)) (l : Sink) : Sink :=
  fold_left (fun l line => Printf l (fst line) (snd line)) lines l.

(** [logs Printf m a lines]: from every state, [m] yields [a], leaves the
    level alone and writes those of [lines] that are visible at the level
    of the state, in order, and nothing else. *)
Definition logs {Sink A} (Printf : Sink -> string -> list Arg -> Sink)
    (m : M Sink A) (a : A) (lines : list (string * list Arg)) : Prop :=
  forall w,
    fst (m w) = a /\
    currentLogLevel (snd (m w)) = currentLogLevel w /\
    Logger (snd (m w))
    = write Printf (filter (visible (currentLogLevel w)) lines) (Logger w).

(** ** The helper of the package tests

    [isTimeoutError]: [err.Error()[:n]] panics when the text is shorter than
    [n]; [None] is that panic. *)
Definition isTimeoutError (err : option error) : option bool :=
  match err with
  | None => Some false
  | Some e =>
      if Error e =? "" then Some false
      else
        let n := String.length "signature verification timed out" in
        if Nat.leb n (String.length (Error e)) then
          Some (substring 0 n (Error e) =? "signature verification timed out")
        else None
  end.

(** ** Reading a dump back

    The inverse of [Sprintf_02x] and of [DumpHex] on non-empty data; they
    serve to show that a dump loses nothing. *)
Definition hexValue (c : ascii) : N :=
  let n := N_of_ascii c in
  (if n <? 58 then n - 48 else n - 87)%N.

Definition byteOfHex (hi lo : ascii) : byte :=
  base64.to_byte (16 * hexValue hi + hexValue lo).

Fixpoint parseDump (s : string) : list byte :=
  match s with
  | String hi (String lo rest) =>
      byteOfHex hi lo ::
      match rest with
      | String _ rest' => parseDump rest'
      | EmptyString => []
      end
  | _ => []
  end.

Create HintDb runs.

Declare Scope monad_scope.
Delimit Scope monad_scope with monad.

(** ** The package with a [Logger] that may be nil

    [Logger] is an exported [*log.Logger]: a caller can set it to nil, and
    [Logger.Printf] then panics. Here the logger is [option Sink], a run is
    [None] when it panicked, and the address-based functions are embedded
    once more, step for step, over such runs. *)
Module NilLogger.
Section Runs.

Variable Sink : Type.
Variable Sink_Printf : Sink -> string -> list Arg -> Sink.
Variable verifier_VerifyWithChain :
  verifier_SignedMessage -> Params -> outcome.

Definition PM (A : Type) : Type :=
  World (option Sink) -> option (A * World (option Sink)).

Definition ret {A} (a : A) : PM A := fun w => Some (a, w).

Definition bind {A B} (m : PM A) (k : A -> PM B) : PM B :=
  fun w => match m w with
           | Some r => k (fst r) (snd r)
           | None => None
           end.

Notation "x <- m ;; k" := (bind m (fun x => k))
  (at level 61, m at next level, right associativity) : monad_scope.
Notation "m ;; k" := (bind m (fun _ => k))
  (at level 61, right associativity) : monad_scope.
Local Open Scope monad_scope.

Definition when (b : bool) (m : PM unit) : PM unit :=
  if b then m else ret tt.

Definition call (c : Call) : PM unit :=
  fun w => Some (tt, mkWorld (currentLogLevel w) (Logger w) (calls w ++ [c])).

(** [Logger.Printf]: a nil pointer dereference when there is no logger. *)
Definition Logger_Printf (format : string) (args : list Arg) : PM unit :=
  fun w => match Logger w with
           | Some l =>
               Some (tt, mkWorld (currentLogLevel w)
                                 (Some (Sink_Printf l format args))
                                 (calls w))
           | None => None
           end.

Definition GetLogLevel : PM LogLevel :=
  fun w => Some (currentLogLevel w, w).

Definition LogError (format : string) (args : list Arg) : PM unit :=
  fun w => when (LogLevel_ge (currentLogLevel w) LogLevelError)
                (Logger_Printf ("[ERROR] " ++ format) args) w.

Definition LogInfo (format : string) (args : list Arg) : PM unit :=
  fun w => when (LogLevel_ge (currentLogLevel w) LogLevelInfo)
                (Logger_Printf ("[INFO] " ++ format) args) w.

Definition LogDebug (format : string) (args : list Arg) : PM unit :=
  fun w => when (LogLevel_ge (currentLogLevel w) LogLevelDebug)
                (Logger_Printf ("[DEBUG] " ++ format) args) w.

Definition LogTrace (format : string) (args : list Arg) : PM unit :=
  fun w => when (LogLevel_ge (currentLogLevel w) LogLevelTrace)
                (Logger_Printf ("[TRACE] " ++ format) args) w.

Definition LogWarning (format : string) (args : list Arg) : PM unit :=
  fun w => when (LogLevel_ge (currentLogLevel w) LogLevelInfo)
                (Logger_Printf ("[WARNING] " ++ format) args) w.

Definition headerBlock (sigBytes : list byte) : PM (option HeaderDetails) :=
  match sigBytes with
  | [] => ret None
  | b :: _ =>
      let headerByte := Byte.to_N b in
      LogDebug "Signature header byte: 0x%02x" [ArgByte b];;
      let recID := N.land headerByte 3 in
      let isCompressed := false in
      let addrType := "Unknown" in
      sw <- (if (27 <=? headerByte)%N && (headerByte <=? 30)%N then
               ret ("P2PKH (uncompressed)", false)
             else if (31 <=? headerByte)%N && (headerByte <=? 34)%N then
               ret ("P2PKH (compressed)", true)
             else if (35 <=? headerByte)%N && (headerByte <=? 38)%N then
               ret ("P2SH-P2WPKH (SegWit over P2SH)", true)
             else if (39 <=? headerByte)%N && (headerByte <=? 42)%N then
               ret ("P2WPKH (native SegWit)", true)
             else
               LogWarning "Unknown signature header byte: 0x%02x" [ArgByte b];;
               ret (addrType, isCompressed));;
      let addrType := fst sw in
      let isCompressed := snd sw in
      LogDebug "Signature details from header:" [];;
      LogDebug "  Address type: %s" [ArgString addrType];;
      LogDebug "  Compressed public key: %t" [ArgBool isCompressed];;
      LogDebug "  Recovery ID: %d" [ArgN recID];;
      ret (Some (mkHeaderDetails recID isCompressed addrType))
  end.

Definition VerifyBip137SignatureWithParams
    (address message signatureBase64 : string) (params : Params)
    : PM outcome :=
  LogDebug "Verifying signature with network parameters: %s"
           [ArgString (Name params)];;
  level <- GetLogLevel;;
  when (LogLevel_ge level LogLevelTrace)
       (LogTrace "Detailed verification parameters:" [];;
        LogTrace "Network: %s" [ArgString (Name params)];;
        LogTrace "P2PKH Prefix: %x" [ArgByte (PubKeyHashAddrID params)];;
        LogTrace "P2SH Prefix: %x" [ArgByte (ScriptHashAddrID params)]);;
  if address =? "" then
    LogError "Empty address provided" [];;
    ret (false, Some ErrEmptyAddress)
  else if message =? "" then
    LogError "Empty message provided" [];;
    ret (false, Some ErrEmptyMessage)
  else if signatureBase64 =? "" then
    LogError "Empty signature provided" [];;
    ret (false, Some ErrEmptySignature)
  else
    call (CallBase64Decode signatureBase64);;
    match base64.DecodeString signatureBase64 with
    | inr err =>
        LogError "Failed to decode base64 signature: %v" [ArgError err];;
        ret (false, Some (Errorf_w "invalid base64 signature" err))
    | inl sigBytes =>
        LogTrace "Decoded signature (hex): %s" [ArgString (DumpHex sigBytes)];;
        headerBlock sigBytes;;
        let signedMessage :=
          mkVerifierSignedMessage address message signatureBase64 in
        LogDebug "Calling BitonicNL verifier to verify signature" [];;
        call (CallVerifyWithChain address message signatureBase64
                                  (Name params));;
        let r := verifier_VerifyWithChain signedMessage params in
        let valid := fst r in
        match snd r with
        | Some err =>
            LogError "Signature verification failed: %v" [ArgError err];;
            ret (false, Some (Errorf_w "signature verification error" err))
        | None =>
            (if valid then LogInfo "Signature verification successful" []
             else LogInfo "Signature verification failed (invalid signature)"
                          []);;
            ret (valid, None)
        end
    end.

Definition VerifyBip137Signature (address message signatureBase64 : string)
    : PM outcome :=
  LogInfo "Starting BIP-0137 signature verification" [];;
  LogDebug "Address: %s" [ArgString address];;
  LogDebug "Message: %s" [ArgString message];;
  LogDebug "Signature (Base64): %s" [ArgString signatureBase64];;
  result <- VerifyBip137SignatureWithParams address message signatureBase64
                                            MainNetParams;;
  LogDebug "Verification completed in %s" [ArgTime];;
  ret result.

End Runs.
End NilLogger.

(** A logger that is there behaves as in the embedding without nil: its
    [Printf] there is the given one under [Some]. *)
Definition liftPrintf {Sink} (Printf : Sink -> string -> list Arg -> Sink)
    (l : option Sink) (format : string) (args : list Arg) : option Sink :=
  match l with
  | Some s => Some (Printf s format args)
  | None => None
  end.

(** A state in which logging cannot panic: the logger is there, or the
    level is [LogLevelNone] or below, and no logging function gets past its
    guard. *)
Definition usable {Sink} (w : World (option Sink)) : Prop :=
  Logger w <> None \/ (currentLogLevel w <= LogLevelNone)%Z.

(** [simulates pm m]: from every usable state the run [pm], which may
    panic, does not, and does what [m] does. *)
Definition simulates {Sink A} (pm : NilLogger.PM Sink A)
    (m : M (option Sink) A) : Prop :=
  forall w, usable w -> pm w = Some (m w) /\ usable (snd (m w)).

Section Package.

(** [Logger]: any sink with a [Printf]. *)
Variable Sink : Type.
Variable Sink_Printf : Sink -> string -> list Arg -> Sink.

(** btcec public keys and btcutil addresses. *)
Variable PublicKey : Type.
Variable SerializeCompressed : PublicKey -> list byte.
Variable Hash160 : list byte -> list byte.
Variable AddressPubKeyHash : Type.
Variable NewAddressPubKeyHash :
  list byte -> Params -> AddressPubKeyHash + error.
Variable EncodeAddress : AddressPubKeyHash -> string.

(** The BitonicNL verifier. *)
Variable verifier_VerifyWithChain :
  verifier_SignedMessage -> Params -> outcome.
Variable verifier_Verify : verifier_SignedMessage -> outcome.

Notation "x <- m ;; k" := (bind m (fun x => k))
  (at level 61, m at next level, right associativity) : monad_scope.
Notation "m ;; k" := (bind m (fun _ => k))
  (at level 61, right associativity) : monad_scope.
Local Open Scope monad_scope.

(** [EnhancedVerifyBip137SignatureWithPubKey]: a function of the package
    whose file is not among the sources; it may log and call out. *)
Variable EnhancedVerifyBip137SignatureWithPubKey :
  PublicKey -> string -> string -> M Sink outcome.

(** *** logger.go *)

Definition Logger_Printf (format : string) (args : list Arg) : M Sink unit :=
  fun w => (tt, mkWorld (currentLogLevel w)
                        (Sink_Printf (Logger w) format args)
                        (calls w)).

Definition SetLogLevel (level : LogLevel) : M Sink unit :=
  fun w => (tt, mkWorld level (Logger w) (calls w)).

Definition GetLogLevel : M Sink LogLevel :=
  fun w => (currentLogLevel w, w).

Definition LogError (format : string) (args : list Arg) : M Sink unit :=
  fun w => when (LogLevel_ge (currentLogLevel w) LogLevelError)
                (Logger_Printf ("[ERROR] " ++ format) args) w.

Definition LogInfo (format : string) (args : list Arg) : M Sink unit :=
  fun w => when (LogLevel_ge (currentLogLevel w) LogLevelInfo)
                (Logger_Printf ("[INFO] " ++ format) args) w.

Definition LogDebug (format : string) (args : list Arg) : M Sink unit :=
  fun w => when (LogLevel_ge (currentLogLevel w) LogLevelDebug)
                (Logger_Printf ("[DEBUG] " ++ format) args) w.

Definition LogTrace (format : string) (args : list Arg) : M Sink unit :=
  fun w => when (LogLevel_ge (currentLogLevel w) LogLevelTrace)
                (Logger_Printf ("[TRACE] " ++ format) args) w.

(** [LogWarning] lives in signature.go and fires from level Info up. *)
Definition LogWarning (format : string) (args : list Arg) : M Sink unit :=
  fun w => when (LogLevel_ge (currentLogLevel w) LogLevelInfo)
                (Logger_Printf ("[WARNING] " ++ format) args) w.

(** *** The header block shared by signature.go and pubkey.go

    [if len(sigBytes) > 0 { ... }]: the same text in
    [VerifyBip137SignatureWithParams] and in
    [VerifyBip137SignatureWithPubKeyAndParams]. Its locals are returned so
    that they can be stated; the callers drop them, as the Go code does. *)
Definition headerBlock (sigBytes : list byte) : M Sink (option HeaderDetails) :=
  match sigBytes with
  | [] => ret None
  | b :: _ =>
      let headerByte := Byte.to_N b in
      LogDebug "Signature header byte: 0x%02x" [ArgByte b];;
      let recID := N.land headerByte 3 in
      let isCompressed := false in
      let addrType := "Unknown" in
      sw <- (if (27 <=? headerByte)%N && (headerByte <=? 30)%N then
               ret ("P2PKH (uncompressed)", false)
             else if (31 <=? headerByte)%N && (headerByte <=? 34)%N then
               ret ("P2PKH (compressed)", true)
             else if (35 <=? headerByte)%N && (headerByte <=? 38)%N then
               ret ("P2SH-P2WPKH (SegWit over P2SH)", true)
             else if (39 <=? headerByte)%N && (headerByte <=? 42)%N then
               ret ("P2WPKH (native SegWit)", true)
             else
               LogWarning "Unknown signature header byte: 0x%02x" [ArgByte b];;
               ret (addrType, isCompressed));;
      let addrType := fst sw in
      let isCompressed := snd sw in
      LogDebug "Signature details from header:" [];;
      LogDebug "  Address type: %s" [ArgString addrType];;
      LogDebug "  Compressed public key: %t" [ArgBool isCompressed];;
      LogDebug "  Recovery ID: %d" [ArgN recID];;
      ret (Some (mkHeaderDetails recID isCompressed addrType))
  end.

(** *** signature.go *)

Definition VerifyBip137SignatureWithParams
    (address message signatureBase64 : string) (params : Params)
    : M Sink outcome :=
  LogDebug "Verifying signature with network parameters: %s"
           [ArgString (Name params)];;
  (* Log inputs *)
  level <- GetLogLevel;;
  when (LogLevel_ge level LogLevelTrace)
       (LogTrace "Detailed verification parameters:" [];;
        LogTrace "Network: %s" [ArgString (Name params)];;
        LogTrace "P2PKH Prefix: %x" [ArgByte (PubKeyHashAddrID params)];;
        LogTrace "P2SH Prefix: %x" [ArgByte (ScriptHashAddrID params)]);;
  (* Validate inputs *)
  if address =? "" then
    LogError "Empty address provided" [];;
    ret (false, Some ErrEmptyAddress)
  else if message =? "" then
    LogError "Empty message provided" [];;
    ret (false, Some ErrEmptyMessage)
  else if signatureBase64 =? "" then
    LogError "Empty signature provided" [];;
    ret (false, Some ErrEmptySignature)
  else
    (* Attempt to decode the signature to validate it's correct base64 *)
    call (CallBase64Decode signatureBase64);;
    match base64.DecodeString signatureBase64 with
    | inr err =>
        LogError "Failed to decode base64 signature: %v" [ArgError err];;
        ret (false, Some (Errorf_w "invalid base64 signature" err))
    | inl sigBytes =>
        LogTrace "Decoded signature (hex): %s" [ArgString (DumpHex sigBytes)];;
        (* Check the signature header byte *)
        headerBlock sigBytes;;
        (* Create a signed message struct *)
        let signedMessage :=
          mkVerifierSignedMessage address message signatureBase64 in
        (* Verify the signature using the provided network parameters *)
        LogDebug "Calling BitonicNL verifier to verify signature" [];;
        call (CallVerifyWithChain address message signatureBase64
                                  (Name params));;
        let r := verifier_VerifyWithChain signedMessage params in
        let valid := fst r in
        match snd r with
        | Some err =>
            LogError "Signature verification failed: %v" [ArgError err];;
            ret (false, Some (Errorf_w "signature verification error" err))
        | None =>
            (if valid then LogInfo "Signature verification successful" []
             else LogInfo "Signature verification failed (invalid signature)"
                          []);;
            ret (valid, None)
        end
    end.

(** The [defer] runs after the callee returned and before the caller gets
    the result. *)
Definition VerifyBip137Signature (address message signatureBase64 : string)
    : M Sink outcome :=
  LogInfo "Starting BIP-0137 signature verification" [];;
  LogDebug "Address: %s" [ArgString address];;
  LogDebug "Message: %s" [ArgString message];;
  LogDebug "Signature (Base64): %s" [ArgString signatureBase64];;
  result <- VerifyBip137SignatureWithParams address message signatureBase64
                                            MainNetParams;;
  LogDebug "Verification completed in %s" [ArgTime];;
  ret result.

(** The goroutine and the [select] are sequentialised on the case that
    fires: when the result channel wins, the goroutine has run to its
    send; when [ctx.Done()] wins, whatever the goroutine does is never
    received, and it is left out of the run. *)
Definition VerifyBip137SignatureWithContext
    (ctx : Context) (msg : SignedMessage) (fired : SelectCase)
    : M Sink outcome :=
  LogInfo "Starting context-based signature verification" [];;
  (* Check if context has a deadline *)
  match ctx_Deadline ctx with
  | Some _ =>
      LogDebug "Context has deadline: %s (timeout in %s)" [ArgTime; ArgTime]
  | None => LogDebug "Context has no deadline" []
  end;;
  match fired with
  | case_ctx_Done =>
      let ctxErr := ctx_Err ctx in
      LogError "Context cancelled or timed out: %v" [ArgError ctxErr];;
      ret (false, Some (Errorf_w_v ErrVerificationTimeout ctxErr))
  | case_resultCh =>
      (* the goroutine *)
      LogDebug "Starting verification goroutine" [];;
      let signedMessage :=
        mkVerifierSignedMessage (Address msg) (Message msg) (Signature msg) in
      call (CallVerify (Address msg) (Message msg) (Signature msg));;
      let result := verifier_Verify signedMessage in
      LogDebug "Verification completed in goroutine after %s" [ArgTime];;
      (* case result := <-resultCh *)
      match snd result with
      | Some err =>
          LogError "Signature verification error: %v" [ArgError err];;
          ret (false, Some (Errorf_w "signature verification error" err))
      | None =>
          LogInfo "Context-based verification result: %t"
                  [ArgBool (fst result)];;
          ret (fst result, None)
      end
  end.

(** *** pubkey.go

    [*btcec.PublicKey] is [option PublicKey], [None] being the nil
    pointer. *)

Definition VerifyBip137SignatureWithPubKey
    (pubKey : option PublicKey) (message signatureBase64 : string)
    : M Sink outcome :=
  LogInfo "Starting BIP-0137 signature verification with public key" [];;
  LogDebug "Message: %s" [ArgString message];;
  LogDebug "Signature (Base64): %s" [ArgString signatureBase64];;
  match pubKey with
  | Some pk =>
      LogDebug "Public Key (compressed): %x"
               [ArgBytes (SerializeCompressed pk)];;
      (* Use the enhanced implementation with fallback to address-based
         verification *)
      call (CallEnhancedVerify message signatureBase64);;
      result <- EnhancedVerifyBip137SignatureWithPubKey
                  pk message signatureBase64;;
      LogDebug "Verification completed in %s" [ArgTime];;
      ret result
  | None =>
      LogError "Empty public key provided" [];;
      ret (false, Some (Errorf "empty public key"))
  end.

Definition VerifyBip137SignatureWithPubKeyAndParams
    (pubKey : option PublicKey) (message signatureBase64 : string)
    (params : Params) : M Sink outcome :=
  LogDebug "Verifying signature with network parameters: %s"
           [ArgString (Name params)];;
  (* Log inputs *)
  level <- GetLogLevel;;
  when (LogLevel_ge level LogLevelTrace)
       (LogTrace "Detailed verification parameters:" [];;
        LogTrace "Network: %s" [ArgString (Name params)];;
        LogTrace "P2PKH Prefix: %x" [ArgByte (PubKeyHashAddrID params)];;
        LogTrace "P2SH Prefix: %x" [ArgByte (ScriptHashAddrID params)];;
        match pubKey with
        | Some pk =>
            LogTrace "Public Key (hex): %x"
                     [ArgBytes (SerializeCompressed pk)]
        | None => ret tt
        end);;
  (* Validate inputs *)
  match pubKey with
  | None =>
      LogError "Empty public key provided" [];;
      ret (false, Some (Errorf "empty public key"))
  | Some pk =>
      if message =? "" then
        LogError "Empty message provided" [];;
        ret (false, Some ErrEmptyMessage)
      else if signatureBase64 =? "" then
        LogError "Empty signature provided" [];;
        ret (false, Some ErrEmptySignature)
      else
        call (CallBase64Decode signatureBase64);;
        match base64.DecodeString signatureBase64 with
        | inr err =>
            LogError "Failed to decode base64 signature: %v" [ArgError err];;
            ret (false, Some (Errorf_w "invalid base64 signature" err))
        | inl sigBytes =>
            LogTrace "Decoded signature (hex): %s"
                     [ArgString (DumpHex sigBytes)];;
            headerBlock sigBytes;;
            (* Derive address and verify using the address-based method
               with the appropriate network parameters *)
            call (CallHash160 (SerializeCompressed pk));;
            let pubKeyHash := Hash160 (SerializeCompressed pk) in
            call (CallNewAddressPubKeyHash pubKeyHash (Name params));;
            match NewAddressPubKeyHash pubKeyHash params with
            | inr err =>
                LogError "Failed to derive address from public key: %v"
                         [ArgError err];;
                ret (false,
                     Some (Errorf_w
                             "failed to derive address from public key" err))
            | inl addr =>
                let derivedAddress := EncodeAddress addr in
                LogInfo "Derived address from public key: %s"
                        [ArgString derivedAddress];;
                (* Use the address-based verification with the specified
                   network parameters *)
                VerifyBip137SignatureWithParams
                  derivedAddress message signatureBase64 params
            end
        end
  end.

(** Sequentialised like [VerifyBip137SignatureWithContext]. *)
Definition VerifyBip137SignatureWithPubKeyAndContext
    (ctx : Context) (pubKey : option PublicKey)
    (message signatureBase64 : string) (fired : SelectCase) : M Sink outcome :=
  LogInfo "Starting context-based signature verification with public key"
          [];;
  match ctx_Deadline ctx with
  | Some _ =>
      LogDebug "Context has deadline: %s (timeout in %s)" [ArgTime; ArgTime]
  | None => LogDebug "Context has no deadline" []
  end;;
  match fired with
  | case_ctx_Done =>
      let ctxErr := ctx_Err ctx in
      LogError "Context cancelled or timed out: %v" [ArgError ctxErr];;
      ret (false, Some (Errorf_w_v ErrVerificationTimeout ctxErr))
  | case_resultCh =>
      LogDebug "Starting verification goroutine" [];;
      result <- VerifyBip137SignatureWithPubKey
                  pubKey message signatureBase64;;
      LogDebug "Verification completed in goroutine after %s" [ArgTime];;
      match snd result with
      | Some err =>
          LogError "Signature verification error: %v" [ArgError err];;
          ret (false, Some (Errorf_w "signature verification error" err))
      | None =>
          LogInfo "Context-based verification result: %t"
                  [ArgBool (fst result)];;
          ret (fst result, None)
      end
  end.

(** [formatBitcoinMessage] *)
Definition formatBitcoinMessage (message : string) : M Sink (list byte) :=
  LogTrace "Formatted Bitcoin message with standard prefix" [];;
  ret (list_byte_of_string message).

(** The calls by which [VerifyBip137SignatureWithPubKeyAndParams] derives
    the address from the key. *)
Definition derivationCalls (pk : PublicKey) (params : Params) : list Call :=
  [CallHash160 (SerializeCompressed pk);
   CallNewAddressPubKeyHash (Hash160 (SerializeCompressed pk)) (Name params)].

(** ** Reasoning rules for runs *)

Lemma returns_ret {A} (a : A) : returns (Sink := Sink) (ret a) a [].
Proof. intro w. cbn. rewrite app_nil_r. auto. Qed.

Lemma returns_bind {A B} (m : M Sink A) (k : A -> M Sink B) a b cs cs' :
  returns m a cs -> returns (k a) b cs' -> returns (bind m k) b (cs ++ cs').
Proof.
  intros Hm Hk w. unfold bind.
  destruct (Hm w) as (Ha & Hc & Hl). rewrite Ha.
  destruct (Hk (snd (m w))) as (Hb & Hc' & Hl').
  rewrite Hb, Hc', Hl', Hc, Hl, app_assoc. auto.
Qed.

(** A step that makes no call. *)
Lemma returns_seq {A B} (m : M Sink A) (k : A -> M Sink B) a b cs :
  returns m a [] -> returns (k a) b cs -> returns (bind m k) b cs.
Proof. intros Hm Hk. apply (returns_bind m k a b [] cs Hm Hk). Qed.

Lemma returns_call c : returns (Sink := Sink) (call c) tt [c].
Proof. intro w. cbn. auto. Qed.

Lemma returns_Logger_Printf format args :
  returns (Logger_Printf format args) tt [].
Proof. intro w. cbn. rewrite app_nil_r. auto. Qed.

Lemma returns_when b (m : M Sink unit) :
  returns m tt [] -> returns (when b m) tt [].
Proof. destruct b; cbn; auto using returns_ret. Qed.

Lemma returns_guarded (b : World Sink -> bool) (m : M Sink unit) :
  returns m tt [] -> returns (fun w => when (b w) m w) tt [].
Proof. intros Hm w. apply (returns_when (b w) m Hm). Qed.

Lemma returns_LogError format args : returns (LogError format args) tt [].
Proof. apply returns_guarded, returns_Logger_Printf. Qed.

Lemma returns_LogInfo format args : returns (LogInfo format args) tt [].
Proof. apply returns_guarded, returns_Logger_Printf. Qed.

Lemma returns_LogDebug format args : returns (LogDebug format args) tt [].
Proof. apply returns_guarded, returns_Logger_Printf. Qed.

Lemma returns_LogTrace format args : returns (LogTrace format args) tt [].
Proof. apply returns_guarded, returns_Logger_Printf. Qed.

Lemma returns_LogWarning format args : returns (LogWarning format args) tt [].
Proof. apply returns_guarded, returns_Logger_Printf. Qed.

(** Reading the level is the one step whose value depends on the state;
    what follows must not depend on it. *)
Lemma returns_GetLogLevel {B} (k : LogLevel -> M Sink B) b cs :
  (forall level, returns (k level) b cs) -> returns (bind GetLogLevel k) b cs.
Proof. intros Hk w. unfold bind, GetLogLevel. cbn. apply Hk. Qed.

#[local] Hint Resolve returns_ret returns_call returns_LogError returns_LogInfo
  returns_LogDebug returns_LogTrace returns_LogWarning returns_when : runs.

(** Solve [returns m ?a []] for a block of logging steps. *)
Ltac quiet :=
  lazymatch goal with
  | |- returns (bind _ _) _ _ =>
      eapply returns_seq; [quiet | cbv beta; quiet]
  | |- returns (when _ _) _ _ => apply returns_when; quiet
  | |- _ => solve [eauto with runs]
  end.

(** Peel the logging steps off the front of a run. *)
Ltac log_steps :=
  repeat lazymatch goal with
         | |- returns (bind GetLogLevel _) _ _ =>
             apply returns_GetLogLevel; intro
         | |- returns (bind _ _) _ _ =>
             eapply returns_seq; [solve [quiet] | cbv beta]
         end.

Lemma returns_headerBlock_nil : returns (headerBlock []) None [].
Proof. apply returns_ret. Qed.

(** The header block yields the locals that its [switch] leaves behind. *)
Lemma returns_headerBlock_cons b rest :
  let headerByte := Byte.to_N b in
  let sw :=
    (if (27 <=? headerByte) && (headerByte <=? 30) then
       ("P2PKH (uncompressed)", false)
     else if (31 <=? headerByte) && (headerByte <=? 34) then
       ("P2PKH (compressed)", true)
     else if (35 <=? headerByte) && (headerByte <=? 38) then
       ("P2SH-P2WPKH (SegWit over P2SH)", true)
     else if (39 <=? headerByte) && (headerByte <=? 42) then
       ("P2WPKH (native SegWit)", true)
     else ("Unknown", false))%N in
  returns (headerBlock (b :: rest))
          (Some (mkHeaderDetails (N.land headerByte 3) (snd sw) (fst sw))) [].
Proof.
  cbn zeta. cbn [headerBlock].
  repeat match goal with
         | |- context [if ?c then _ else _] => destruct c
         end;
    cbv beta iota; quiet.
Qed.

Lemma returns_headerBlock sigBytes :
  exists d, returns (headerBlock sigBytes) d [].
Proof.
  destruct sigBytes as [|b rest]; eexists.
  - apply returns_headerBlock_nil.
  - apply returns_headerBlock_cons.
Qed.

(** ** Runs of [VerifyBip137SignatureWithParams], path by path *)

Lemma WithParams_empty_address message signatureBase64 params :
  returns (VerifyBip137SignatureWithParams "" message signatureBase64 params)
          (false, Some ErrEmptyAddress) [].
Proof.
  unfold VerifyBip137SignatureWithParams. log_steps.
  cbn [String.eqb]. quiet.
Qed.

Lemma WithParams_empty_message address signatureBase64 params :
  address <> "" ->
  returns (VerifyBip137SignatureWithParams address "" signatureBase64 params)
          (false, Some ErrEmptyMessage) [].
Proof.
  intros Ha. unfold VerifyBip137SignatureWithParams. log_steps.
  rewrite (proj2 (String.eqb_neq _ _) Ha). cbn [String.eqb]. quiet.
Qed.

Lemma WithParams_empty_signature address message params :
  address <> "" -> message <> "" ->
  returns (VerifyBip137SignatureWithParams address message "" params)
          (false, Some ErrEmptySignature) [].
Proof.
  intros Ha Hm. unfold VerifyBip137SignatureWithParams. log_steps.
  rewrite (proj2 (String.eqb_neq _ _) Ha), (proj2 (String.eqb_neq _ _) Hm).
  cbn [String.eqb]. quiet.
Qed.

Lemma WithParams_bad_base64 address message signatureBase64 params err :
  address <> "" -> message <> "" -> signatureBase64 <> "" ->
  base64.DecodeString signatureBase64 = inr err ->
  returns (VerifyBip137SignatureWithParams
             address message signatureBase64 params)
          (false, Some (Errorf_w "invalid base64 signature" err))
          [CallBase64Decode signatureBase64].
Proof.
  intros Ha Hm Hs Hd. unfold VerifyBip137SignatureWithParams. log_steps.
  rewrite (proj2 (String.eqb_neq _ _) Ha), (proj2 (String.eqb_neq _ _) Hm),
    (proj2 (String.eqb_neq _ _) Hs), Hd.
  eapply (returns_bind _ _ tt _ [_] []); [apply returns_call|]. quiet.
Qed.

Lemma WithParams_decoded address message signatureBase64 params sigBytes :
  address <> "" -> message <> "" -> signatureBase64 <> "" ->
  base64.DecodeString signatureBase64 = inl sigBytes ->
  returns (VerifyBip137SignatureWithParams
             address message signatureBase64 params)
          (wrapVerifierAnswer
             (verifier_VerifyWithChain
                (mkVerifierSignedMessage address message signatureBase64)
                params))
          [CallBase64Decode signatureBase64;
           CallVerifyWithChain address message signatureBase64 (Name params)].
Proof.
  intros Ha Hm Hs Hd. unfold VerifyBip137SignatureWithParams. log_steps.
  rewrite (proj2 (String.eqb_neq _ _) Ha), (proj2 (String.eqb_neq _ _) Hm),
    (proj2 (String.eqb_neq _ _) Hs), Hd.
  eapply (returns_bind _ _ tt _ [_] [_]); [apply returns_call|].
  log_steps.
  destruct (returns_headerBlock sigBytes) as [d Hd'].
  eapply returns_seq; [apply Hd'|]. log_steps.
  eapply (returns_bind _ _ tt _ [_] []); [apply returns_call|].
  cbv zeta. unfold wrapVerifierAnswer.
  destruct (verifier_VerifyWithChain _ _) as [valid [err|]]; cbn [fst snd].
  - quiet.
  - destruct valid; quiet.
Qed.

Lemma definitive_wrapVerifierAnswer r : definitive (wrapVerifierAnswer r) = true.
Proof. destruct r as [[|] [e|]]; reflexivity. Qed.

(** Every run of [VerifyBip137SignatureWithParams] takes one of the five
    paths above. *)
Lemma WithParams_total address message signatureBase64 params :
  exists r cs,
    returns (VerifyBip137SignatureWithParams
               address message signatureBase64 params) r cs /\
    definitive r = true.
Proof.
  destruct (String.eqb_spec address "") as [->|Ha].
  { do 2 eexists. split; [apply WithParams_empty_address|reflexivity]. }
  destruct (String.eqb_spec message "") as [->|Hm].
  { do 2 eexists. split; [apply WithParams_empty_message; auto|reflexivity]. }
  destruct (String.eqb_spec signatureBase64 "") as [->|Hs].
  { do 2 eexists.
    split; [apply WithParams_empty_signature; auto|reflexivity]. }
  destruct (base64.DecodeString signatureBase64) as [sigBytes|err] eqn:Hd.
  - do 2 eexists.
    split; [eapply WithParams_decoded; eauto|].
    apply definitive_wrapVerifierAnswer.
  - do 2 eexists.
    split; [eapply WithParams_bad_base64; eauto|reflexivity].
Qed.

(** ** The other entry points *)

Lemma VerifyBip137Signature_run address message signatureBase64 r cs :
  returns (VerifyBip137SignatureWithParams
             address message signatureBase64 MainNetParams) r cs ->
  returns (VerifyBip137Signature address message signatureBase64) r cs.
Proof.
  intros H. unfold VerifyBip137Signature. log_steps.
  eapply (returns_bind _ _ _ _ cs []) in H.
  - rewrite app_nil_r in H. apply H.
  - cbv beta. quiet.
Qed.

Lemma WithContext_ctx_Done ctx msg :
  returns (VerifyBip137SignatureWithContext ctx msg case_ctx_Done)
          (false, Some (Errorf_w_v ErrVerificationTimeout (ctx_Err ctx))) [].
Proof.
  unfold VerifyBip137SignatureWithContext.
  eapply returns_seq; [quiet|]. cbv beta.
  eapply returns_seq; [destruct (ctx_Deadline ctx); quiet|]. cbv beta zeta.
  quiet.
Qed.

Lemma WithContext_resultCh ctx msg :
  returns (VerifyBip137SignatureWithContext ctx msg case_resultCh)
          (wrapVerifierAnswer
             (verifier_Verify
                (mkVerifierSignedMessage
                   (Address msg) (Message msg) (Signature msg))))
          [CallVerify (Address msg) (Message msg) (Signature msg)].
Proof.
  unfold VerifyBip137SignatureWithContext.
  eapply returns_seq; [quiet|]. cbv beta.
  eapply returns_seq; [destruct (ctx_Deadline ctx); quiet|]. cbv beta zeta.
  log_steps.
  eapply (returns_bind _ _ tt _ [_] []); [apply returns_call|].
  log_steps. unfold wrapVerifierAnswer.
  destruct (verifier_Verify _) as [valid [err|]]; cbn [fst snd]; quiet.
Qed.

Lemma formatBitcoinMessage_run message :
  returns (formatBitcoinMessage message) (list_byte_of_string message) [].
Proof. unfold formatBitcoinMessage. quiet. Qed.

(** ** pubkey.go, path by path *)

Lemma WithPubKey_nil message signatureBase64 :
  returns (VerifyBip137SignatureWithPubKey None message signatureBase64)
          (false, Some (Errorf "empty public key")) [].
Proof. unfold VerifyBip137SignatureWithPubKey. log_steps. quiet. Qed.

(** A key that is there goes to the enhanced implementation, once; what
    that returns is returned. *)
Lemma WithPubKey_delegates pk message signatureBase64 w :
  exists w',
    calls w' = calls w ++ [CallEnhancedVerify message signatureBase64] /\
    currentLogLevel w' = currentLogLevel w /\
    fst (VerifyBip137SignatureWithPubKey (Some pk) message signatureBase64 w)
    = fst (EnhancedVerifyBip137SignatureWithPubKey
             pk message signatureBase64 w').
Proof.
  unfold VerifyBip137SignatureWithPubKey.
  set (pre :=
         LogInfo "Starting BIP-0137 signature verification with public key"
                 [];;
         LogDebug "Message: %s" [ArgString message];;
         LogDebug "Signature (Base64): %s" [ArgString signatureBase64];;
         LogDebug "Public Key (compressed): %x"
                  [ArgBytes (SerializeCompressed pk)];;
         call (CallEnhancedVerify message signatureBase64)).
  assert (Hpre : returns pre tt [CallEnhancedVerify message signatureBase64]).
  { subst pre. log_steps. apply returns_call. }
  destruct (Hpre w) as (_ & Hc & Hl).
  exists (snd (pre w)). repeat split; auto.
Qed.

Lemma WithPubKeyAndParams_nil message signatureBase64 params :
  returns (VerifyBip137SignatureWithPubKeyAndParams
             None message signatureBase64 params)
          (false, Some (Errorf "empty public key")) [].
Proof. unfold VerifyBip137SignatureWithPubKeyAndParams. log_steps. quiet. Qed.

Lemma WithPubKeyAndParams_empty_message pk signatureBase64 params :
  returns (VerifyBip137SignatureWithPubKeyAndParams
             (Some pk) "" signatureBase64 params)
          (false, Some ErrEmptyMessage) [].
Proof.
  unfold VerifyBip137SignatureWithPubKeyAndParams. log_steps.
  cbn [String.eqb]. quiet.
Qed.

Lemma WithPubKeyAndParams_empty_signature pk message params :
  message <> "" ->
  returns (VerifyBip137SignatureWithPubKeyAndParams
             (Some pk) message "" params)
          (false, Some ErrEmptySignature) [].
Proof.
  intros Hm. unfold VerifyBip137SignatureWithPubKeyAndParams. log_steps.
  rewrite (proj2 (String.eqb_neq _ _) Hm). cbn [String.eqb]. quiet.
Qed.

Lemma WithPubKeyAndParams_bad_base64 pk message signatureBase64 params err :
  message <> "" -> signatureBase64 <> "" ->
  base64.DecodeString signatureBase64 = inr err ->
  returns (VerifyBip137SignatureWithPubKeyAndParams
             (Some pk) message signatureBase64 params)
          (false, Some (Errorf_w "invalid base64 signature" err))
          [CallBase64Decode signatureBase64].
Proof.
  intros Hm Hs Hd. unfold VerifyBip137SignatureWithPubKeyAndParams.
  log_steps.
  rewrite (proj2 (String.eqb_neq _ _) Hm), (proj2 (String.eqb_neq _ _) Hs), Hd.
  eapply (returns_bind _ _ tt _ [_] []); [apply returns_call|]. quiet.
Qed.

Lemma WithPubKeyAndParams_derivation_fails
    pk message signatureBase64 params sigBytes err :
  message <> "" -> signatureBase64 <> "" ->
  base64.DecodeString signatureBase64 = inl sigBytes ->
  NewAddressPubKeyHash (Hash160 (SerializeCompressed pk)) params = inr err ->
  returns (VerifyBip137SignatureWithPubKeyAndParams
             (Some pk) message signatureBase64 params)
          (false,
           Some (Errorf_w "failed to derive address from public key" err))
          (CallBase64Decode signatureBase64 :: derivationCalls pk params).
Proof.
  intros Hm Hs Hd Hn. unfold VerifyBip137SignatureWithPubKeyAndParams.
  log_steps.
  rewrite (proj2 (String.eqb_neq _ _) Hm), (proj2 (String.eqb_neq _ _) Hs), Hd.
  eapply (returns_bind _ _ tt _ [_] [_; _]); [apply returns_call|].
  log_steps.
  destruct (returns_headerBlock sigBytes) as [d Hd'].
  eapply returns_seq; [apply Hd'|]. cbv beta.
  eapply (returns_bind _ _ tt _ [_] [_]); [apply returns_call|]. cbv beta zeta.
  eapply (returns_bind _ _ tt _ [_] []); [apply returns_call|].
  rewrite Hn. quiet.
Qed.

Lemma WithPubKeyAndParams_derives
    pk message signatureBase64 params sigBytes addr r cs :
  message <> "" -> signatureBase64 <> "" ->
  base64.DecodeString signatureBase64 = inl sigBytes ->
  NewAddressPubKeyHash (Hash160 (SerializeCompressed pk)) params = inl addr ->
  returns (VerifyBip137SignatureWithParams
             (EncodeAddress addr) message signatureBase64 params) r cs ->
  returns (VerifyBip137SignatureWithPubKeyAndParams
             (Some pk) message signatureBase64 params)
          r
          (CallBase64Decode signatureBase64 :: derivationCalls pk params
           ++ cs).
Proof.
  intros Hm Hs Hd Hn Hr. unfold VerifyBip137SignatureWithPubKeyAndParams.
  log_steps.
  rewrite (proj2 (String.eqb_neq _ _) Hm), (proj2 (String.eqb_neq _ _) Hs), Hd.
  eapply (returns_bind _ _ tt _ [_] (_ :: _ :: cs)); [apply returns_call|].
  log_steps.
  destruct (returns_headerBlock sigBytes) as [d Hd'].
  eapply returns_seq; [apply Hd'|]. cbv beta.
  eapply (returns_bind _ _ tt _ [_] (_ :: cs)); [apply returns_call|].
  cbv beta zeta.
  eapply (returns_bind _ _ tt _ [_] cs); [apply returns_call|].
  rewrite Hn. log_steps. exact Hr.
Qed.

Lemma PubKeyAndContext_ctx_Done ctx pubKey message signatureBase64 :
  returns (VerifyBip137SignatureWithPubKeyAndContext
             ctx pubKey message signatureBase64 case_ctx_Done)
          (false, Some (Errorf_w_v ErrVerificationTimeout (ctx_Err ctx))) [].
Proof.
  unfold VerifyBip137SignatureWithPubKeyAndContext.
  eapply returns_seq; [quiet|]. cbv beta.
  eapply returns_seq; [destruct (ctx_Deadline ctx); quiet|]. cbv beta zeta.
  quiet.
Qed.

(** Results of the two context wrappers are definitive whatever the
    wrapped unit does: an error always comes with [false]. *)
Lemma PubKeyAndContext_definitive ctx pubKey message signatureBase64 fired w :
  definitive (fst (VerifyBip137SignatureWithPubKeyAndContext
                     ctx pubKey message signatureBase64 fired w)) = true.
Proof.
  destruct fired.
  - rewrite (proj1 (PubKeyAndContext_ctx_Done _ _ _ _ w)). reflexivity.
  - unfold VerifyBip137SignatureWithPubKeyAndContext, bind. cbv beta.
    match goal with
    | |- context [snd (fst ?x)] => destruct (fst x) as [[|] [e|]]
    end; reflexivity.
Qed.

(** ** The claims *)

(** C1 (the code falls short of it): [formatBitcoinMessage] is the
    placeholder its own comments announce. For every message it returns
    the bytes of the message as they are, neither prefixed nor hashed; on
    the 23-byte message of the examples the result has 23 bytes, not the
    32 of a double SHA-256 digest. *)
Theorem formatBitcoinMessage_returns_raw_bytes :
  (forall message w,
      fst (formatBitcoinMessage message w) = list_byte_of_string message) /\
  (forall w,
      List.length (fst (formatBitcoinMessage Sample.message w)) = 23%nat).
Proof.
  split; intros.
  - apply (formatBitcoinMessage_run message w).
  - rewrite (proj1 (formatBitcoinMessage_run Sample.message w)). reflexivity.
Qed.

(** C2 (amended): the public-key entry points compare no keys themselves.
    [VerifyBip137SignatureWithPubKey] hands a key that is there to
    [EnhancedVerifyBip137SignatureWithPubKey], once, and returns what that
    returns. [VerifyBip137SignatureWithPubKeyAndParams] has no direct path:
    once message and signature passed validation it always derives the
    address from the compressed key and runs the address-based verification
    on it exactly once, whose outcome is the result. *)
Theorem pubkey_entry_points_delegate
    pk message signatureBase64 params sigBytes addr w :
  message <> "" -> signatureBase64 <> "" ->
  base64.DecodeString signatureBase64 = inl sigBytes ->
  NewAddressPubKeyHash (Hash160 (SerializeCompressed pk)) params = inl addr ->
  EncodeAddress addr <> "" ->
  (exists w',
      calls w' = calls w ++ [CallEnhancedVerify message signatureBase64] /\
      fst (VerifyBip137SignatureWithPubKey
             (Some pk) message signatureBase64 w)
      = fst (EnhancedVerifyBip137SignatureWithPubKey
               pk message signatureBase64 w')) /\
  fst (VerifyBip137SignatureWithPubKeyAndParams
         (Some pk) message signatureBase64 params w)
  = fst (VerifyBip137SignatureWithParams
           (EncodeAddress addr) message signatureBase64 params w) /\
  fst (VerifyBip137SignatureWithPubKeyAndParams
         (Some pk) message signatureBase64 params w)
  = wrapVerifierAnswer
      (verifier_VerifyWithChain
         (mkVerifierSignedMessage
            (EncodeAddress addr) message signatureBase64) params) /\
  calls (snd (VerifyBip137SignatureWithPubKeyAndParams
                (Some pk) message signatureBase64 params w))
  = calls w ++
    [CallBase64Decode signatureBase64;
     CallHash160 (SerializeCompressed pk);
     CallNewAddressPubKeyHash (Hash160 (SerializeCompressed pk))
                              (Name params);
     CallBase64Decode signatureBase64;
     CallVerifyWithChain (EncodeAddress addr) message signatureBase64
                         (Name params)].
Proof.
  intros Hm Hs Hd Hn He.
  pose proof (WithParams_decoded (EncodeAddress addr) message
                signatureBase64 params sigBytes He Hm Hs Hd) as Hp.
  pose proof (WithPubKeyAndParams_derives pk message signatureBase64 params
                sigBytes addr _ _ Hm Hs Hd Hn Hp) as Hk.
  split; [|split; [|split]].
  - destruct (WithPubKey_delegates pk message signatureBase64 w)
      as (w' & Hc & _ & Hf).
    exists w'. auto.
  - rewrite (proj1 (Hk w)), (proj1 (Hp w)). reflexivity.
  - apply (Hk w).
  - apply (Hk w).
Qed.

(** C4 (amended): the result of [VerifyBip137SignatureWithContext] comes
    from the one case of the [select] that fires. When the context's signal
    fires first, the result is [false] with one and the same error for a
    deadline and for a cancellation: [ErrVerificationTimeout], wrapped, with
    the text of the signal's reason appended. When the verification answers
    first, a verdict without error is returned as it is, and an error comes
    back wrapped as "signature verification error" with the verdict
    [false]. *)
Theorem context_wrapper_outcome ctx msg fired w :
  let answer :=
    verifier_Verify
      (mkVerifierSignedMessage (Address msg) (Message msg) (Signature msg)) in
  let r := fst (VerifyBip137SignatureWithContext ctx msg fired w) in
  match fired with
  | case_ctx_Done =>
      r = (false, Some (Errorf_w_v ErrVerificationTimeout (ctx_Err ctx))) /\
      errors_Is (Errorf_w_v ErrVerificationTimeout (ctx_Err ctx))
                ErrVerificationTimeout = true /\
      Error (Errorf_w_v ErrVerificationTimeout (ctx_Err ctx))
      = ("signature verification timed out: " ++ Error (ctx_Err ctx))%string
  | case_resultCh =>
      match snd answer with
      | None => r = answer
      | Some err =>
          r = (false, Some (Errorf_w "signature verification error" err))
      end
  end.
Proof.
  cbv zeta. destruct fired.
  - rewrite (proj1 (WithContext_ctx_Done ctx msg w)). auto.
  - rewrite (proj1 (WithContext_resultCh ctx msg w)).
    unfold wrapVerifierAnswer.
    destruct (verifier_Verify _) as [v [e|]]; reflexivity.
Qed.

(** C5: for a decoded signature of 65 bytes with header byte h, the header
    block classifies h in 27..30 as uncompressed P2PKH, 31..34 as compressed
    P2PKH, 35..38 as P2SH-P2WPKH and 39..42 as P2WPKH, with the compressed
    flag set in the last three ranges only; any other h gives the class
    Unknown and the block still completes; the recovery id is h & 0x03 in
    every case. *)
Theorem header_classification b rest w :
  List.length (b :: rest) = 65%nat ->
  let h := Byte.to_N b in
  exists d,
    fst (headerBlock (b :: rest) w) = Some d /\
    recID d = N.land h 3 /\
    ((27 <= h <= 30)%N ->
     addrType d = "P2PKH (uncompressed)" /\ isCompressed d = false) /\
    ((31 <= h <= 34)%N ->
     addrType d = "P2PKH (compressed)" /\ isCompressed d = true) /\
    ((35 <= h <= 38)%N ->
     addrType d = "P2SH-P2WPKH (SegWit over P2SH)" /\ isCompressed d = true) /\
    ((39 <= h <= 42)%N ->
     addrType d = "P2WPKH (native SegWit)" /\ isCompressed d = true) /\
    ((h < 27 \/ 42 < h)%N ->
     addrType d = "Unknown" /\ isCompressed d = false).
Proof.
  intros _ h.
  pose proof (returns_headerBlock_cons b rest w) as (Hf & _).
  cbv zeta in Hf. fold h in Hf.
  eexists. split; [exact Hf|]. cbn [recID addrType isCompressed].
  split; [reflexivity|].
  repeat match goal with
         | |- context [N.leb ?x ?y] => destruct (N.leb_spec x y)
         end;
    cbn [andb fst snd]; repeat split; intros; try reflexivity; lia.
Qed.

(** C6: with an empty address the result is [(false, ErrEmptyAddress)];
    with an address and an empty message it is [(false, ErrEmptyMessage)];
    with an address, a message and an empty signature it is
    [(false, ErrEmptySignature)]. In each case nothing has been decoded
    and no verifier has been called. *)
Theorem empty_inputs_rejected a m s params w :
  a <> "" -> m <> "" ->
  (fst (VerifyBip137SignatureWithParams "" m s params w)
   = (false, Some ErrEmptyAddress) /\
   calls (snd (VerifyBip137SignatureWithParams "" m s params w)) = calls w) /\
  (fst (VerifyBip137SignatureWithParams a "" s params w)
   = (false, Some ErrEmptyMessage) /\
   calls (snd (VerifyBip137SignatureWithParams a "" s params w)) = calls w) /\
  (fst (VerifyBip137SignatureWithParams a m "" params w)
   = (false, Some ErrEmptySignature) /\
   calls (snd (VerifyBip137SignatureWithParams a m "" params w)) = calls w).
Proof.
  intros Ha Hm.
  destruct (WithParams_empty_address m s params w) as (H1 & H1' & _).
  destruct (WithParams_empty_message a s params Ha w) as (H2 & H2' & _).
  destruct (WithParams_empty_signature a m params Ha Hm w) as (H3 & H3' & _).
  rewrite app_nil_r in H1', H2', H3'. auto 10.
Qed.

Lemma WithPubKeyAndParams_total pubKey message signatureBase64 params :
  exists r cs,
    returns (VerifyBip137SignatureWithPubKeyAndParams
               pubKey message signatureBase64 params) r cs /\
    definitive r = true.
Proof.
  destruct pubKey as [pk|].
  2:{ do 2 eexists. split; [apply WithPubKeyAndParams_nil|reflexivity]. }
  destruct (String.eqb_spec message "") as [->|Hm].
  { do 2 eexists.
    split; [apply WithPubKeyAndParams_empty_message|reflexivity]. }
  destruct (String.eqb_spec signatureBase64 "") as [->|Hs].
  { do 2 eexists.
    split; [apply WithPubKeyAndParams_empty_signature; auto|reflexivity]. }
  destruct (base64.DecodeString signatureBase64) as [sigBytes|err] eqn:Hd.
  2:{ do 2 eexists.
      split; [eapply WithPubKeyAndParams_bad_base64; eauto|reflexivity]. }
  destruct (NewAddressPubKeyHash (Hash160 (SerializeCompressed pk)) params)
    as [addr|err] eqn:Hn.
  - destruct (WithParams_total (EncodeAddress addr) message signatureBase64
                params) as (r & cs & Hr & Hdef).
    do 2 eexists.
    split; [eapply WithPubKeyAndParams_derives; eauto|exact Hdef].
  - do 2 eexists.
    split; [eapply WithPubKeyAndParams_derivation_fails; eauto|reflexivity].
Qed.

(** Every result is a verdict without error or an error with the verdict
    [false], never an error next to [true]: for the address-based entry
    points, the network-parameterised public-key entry point and both
    context wrappers whatever the collaborators do, and for
    [VerifyBip137SignatureWithPubKey] as soon as the enhanced implementation
    it returns the result of keeps to the rule. *)
Lemma results_definitive :
  (forall address message signatureBase64 params w,
      definitive (fst (VerifyBip137SignatureWithParams
                         address message signatureBase64 params w)) = true) /\
  (forall address message signatureBase64 w,
      definitive (fst (VerifyBip137Signature
                         address message signatureBase64 w)) = true) /\
  (forall ctx msg fired w,
      definitive (fst (VerifyBip137SignatureWithContext ctx msg fired w))
      = true) /\
  (forall pubKey message signatureBase64 params w,
      definitive (fst (VerifyBip137SignatureWithPubKeyAndParams
                         pubKey message signatureBase64 params w)) = true) /\
  (forall ctx pubKey message signatureBase64 fired w,
      definitive (fst (VerifyBip137SignatureWithPubKeyAndContext
                         ctx pubKey message signatureBase64 fired w))
      = true) /\
  ((forall pk message signatureBase64 w,
       definitive (fst (EnhancedVerifyBip137SignatureWithPubKey
                          pk message signatureBase64 w)) = true) ->
   forall pubKey message signatureBase64 w,
     definitive (fst (VerifyBip137SignatureWithPubKey
                        pubKey message signatureBase64 w)) = true).
Proof.
  repeat apply conj.
  - intros.
    destruct (WithParams_total address message signatureBase64 params)
      as (r & cs & Hr & Hdef).
    rewrite (proj1 (Hr w)). exact Hdef.
  - intros.
    destruct (WithParams_total address message signatureBase64 MainNetParams)
      as (r & cs & Hr & Hdef).
    rewrite (proj1 (VerifyBip137Signature_run _ _ _ _ _ Hr w)). exact Hdef.
  - intros. destruct fired.
    + rewrite (proj1 (WithContext_ctx_Done ctx msg w)). reflexivity.
    + rewrite (proj1 (WithContext_resultCh ctx msg w)).
      apply definitive_wrapVerifierAnswer.
  - intros.
    destruct (WithPubKeyAndParams_total pubKey message signatureBase64 params)
      as (r & cs & Hr & Hdef).
    rewrite (proj1 (Hr w)). exact Hdef.
  - intros. apply PubKeyAndContext_definitive.
  - intros Henh [pk|] message signatureBase64 w.
    + destruct (WithPubKey_delegates pk message signatureBase64 w)
        as (w' & _ & _ & Hf).
      rewrite Hf. apply Henh.
    + rewrite (proj1 (WithPubKey_nil message signatureBase64 w)).
      reflexivity.
Qed.

(** C9: with a nil public key both public-key entry points return [false]
    with the error "empty public key", having decoded nothing, derived no
    address and called no verifier. *)
Theorem nil_public_key_rejected message signatureBase64 params w :
  fst (VerifyBip137SignatureWithPubKey None message signatureBase64 w)
  = (false, Some (Errorf "empty public key")) /\
  calls (snd (VerifyBip137SignatureWithPubKey
                None message signatureBase64 w)) = calls w /\
  fst (VerifyBip137SignatureWithPubKeyAndParams
         None message signatureBase64 params w)
  = (false, Some (Errorf "empty public key")) /\
  calls (snd (VerifyBip137SignatureWithPubKeyAndParams
                None message signatureBase64 params w)) = calls w /\
  Error (Errorf "empty public key") = "empty public key".
Proof.
  destruct (WithPubKey_nil message signatureBase64 w) as (H1 & H1' & _).
  destruct (WithPubKeyAndParams_nil message signatureBase64 params w)
    as (H2 & H2' & _).
  rewrite app_nil_r in H1', H2'. auto 10.
Qed.

(** C10: the address is checked first, then the message, then the
    signature: as soon as one of the three is empty, the error is the one
    of the first empty field in that order, and nothing has been decoded
    or verified. *)
Theorem validation_order address message signatureBase64 params w :
  address = "" \/ message = "" \/ signatureBase64 = "" ->
  fst (VerifyBip137SignatureWithParams
         address message signatureBase64 params w)
  = (false,
     Some (if address =? "" then ErrEmptyAddress
           else if message =? "" then ErrEmptyMessage
           else ErrEmptySignature)) /\
  calls (snd (VerifyBip137SignatureWithParams
                address message signatureBase64 params w)) = calls w.
Proof.
  intros H.
  destruct (String.eqb_spec address "") as [->|Ha].
  { destruct (WithParams_empty_address message signatureBase64 params w)
      as (H1 & H1' & _).
    rewrite app_nil_r in H1'. auto. }
  destruct (String.eqb_spec message "") as [->|Hm].
  { destruct (WithParams_empty_message address signatureBase64 params Ha w)
      as (H1 & H1' & _).
    rewrite app_nil_r in H1'. auto. }
  destruct H as [H|[H|H]]; try contradiction. subst signatureBase64.
  destruct (WithParams_empty_signature address message params Ha Hm w)
    as (H1 & H1' & _).
  rewrite app_nil_r in H1'. auto.
Qed.

(** ** What the runs write *)

Lemma write_app (xs ys : list (string * list Arg)) (l : Sink) :
  write Sink_Printf (xs ++ ys) l
  = write Sink_Printf ys (write Sink_Printf xs l).
Proof. unfold write. apply fold_left_app. Qed.

Lemma logs_ret {A} (a : A) : logs Sink_Printf (ret a) a [].
Proof. intro w. cbn. auto. Qed.

Lemma logs_bind {A B} (m : M Sink A) (k : A -> M Sink B) a b l1 l2 :
  logs Sink_Printf m a l1 -> logs Sink_Printf (k a) b l2 ->
  logs Sink_Printf (bind m k) b (l1 ++ l2).
Proof.
  intros Hm Hk w. unfold bind.
  destruct (Hm w) as (Ha & Hl & Hw). rewrite Ha.
  destruct (Hk (snd (m w))) as (Hb & Hl' & Hw').
  rewrite Hb, Hl', Hw', Hl, Hw, filter_app, write_app. auto.
Qed.

Lemma logs_call c : logs Sink_Printf (call c) tt [].
Proof. intro w. cbn. auto. Qed.

(** A logging function with threshold [t] and tag [tag] writes its line
    exactly when the line is visible. *)
Lemma logs_tagged (t : LogLevel) (tag format : string) args :
  tagLevel (tag ++ format) = t ->
  logs Sink_Printf
       (fun w => when (LogLevel_ge (currentLogLevel w) t)
                      (Logger_Printf (tag ++ format) args) w)
       tt [((tag ++ format)%string, args)].
Proof.
  intros Ht w. unfold visible. cbn [filter fst]. rewrite Ht.
  destruct (LogLevel_ge (currentLogLevel w) t); cbn; auto.
Qed.

Lemma logs_LogError format args :
  logs Sink_Printf (LogError format args) tt
       [(("[ERROR] " ++ format)%string, args)].
Proof.
  apply (logs_tagged LogLevelError "[ERROR] "). destruct format; reflexivity.
Qed.

Lemma logs_LogInfo format args :
  logs Sink_Printf (LogInfo format args) tt
       [(("[INFO] " ++ format)%string, args)].
Proof.
  apply (logs_tagged LogLevelInfo "[INFO] "). destruct format; reflexivity.
Qed.

Lemma logs_LogWarning format args :
  logs Sink_Printf (LogWarning format args) tt
       [(("[WARNING] " ++ format)%string, args)].
Proof.
  apply (logs_tagged LogLevelInfo "[WARNING] "). destruct format; reflexivity.
Qed.

Lemma logs_LogDebug format args :
  logs Sink_Printf (LogDebug format args) tt
       [(("[DEBUG] " ++ format)%string, args)].
Proof.
  apply (logs_tagged LogLevelDebug "[DEBUG] "). destruct format; reflexivity.
Qed.

Lemma logs_LogTrace format args :
  logs Sink_Printf (LogTrace format args) tt
       [(("[TRACE] " ++ format)%string, args)].
Proof.
  apply (logs_tagged LogLevelTrace "[TRACE] "). destruct format; reflexivity.
Qed.

Lemma filter_trace_only level (lines : list (string * list Arg)) :
  forallb (fun line => Z.eqb (tagLevel (fst line)) LogLevelTrace) lines = true ->
  LogLevel_ge level LogLevelTrace = false ->
  filter (visible level) lines = [].
Proof.
  intros Hall Hlvl. induction lines as [|line rest IH]; [reflexivity|].
  cbn in Hall. apply andb_true_iff in Hall as [Hl Hr].
  cbn [filter]. unfold visible at 1.
  apply Z.eqb_eq in Hl. rewrite Hl, Hlvl. auto.
Qed.

(** The block guarded by [GetLogLevel() >= LogLevelTrace] holds trace lines
    only, so the guard changes nothing to what is written. *)
Lemma logs_trace_block {B} (blk : M Sink unit) (k : unit -> M Sink B)
      b lt lk :
  logs Sink_Printf blk tt lt ->
  forallb (fun line => Z.eqb (tagLevel (fst line)) LogLevelTrace) lt = true ->
  logs Sink_Printf (k tt) b lk ->
  logs Sink_Printf
       (bind GetLogLevel
             (fun level => bind (when (LogLevel_ge level LogLevelTrace) blk) k))
       b (lt ++ lk).
Proof.
  intros Hblk Hall Hk w.
  assert (E : bind GetLogLevel
                (fun level =>
                   bind (when (LogLevel_ge level LogLevelTrace) blk) k) w
              = bind (when (LogLevel_ge (currentLogLevel w) LogLevelTrace) blk)
                     k w) by reflexivity.
  rewrite E. clear E.
  destruct (LogLevel_ge (currentLogLevel w) LogLevelTrace) eqn:Hlvl.
  - apply (logs_bind blk k tt b lt lk Hblk Hk w).
  - cbn [when].
    destruct (logs_bind (ret tt) k tt b [] lk (logs_ret tt) Hk w)
      as (H1 & H2 & H3).
    rewrite filter_app, (filter_trace_only _ _ Hall Hlvl). auto.
Qed.

(** Build the lines of a block of steps. *)
Ltac logging :=
  lazymatch goal with
  | |- logs _ (bind GetLogLevel _) _ _ =>
      eapply logs_trace_block; [logging | reflexivity | cbv beta; logging]
  | |- logs _ (bind _ _) _ _ =>
      eapply logs_bind; [logging | cbv beta; logging]
  | |- logs _ (ret _) _ _ => apply logs_ret
  | |- logs _ (call _) _ _ => apply logs_call
  | |- logs _ (LogError _ _) _ _ => apply logs_LogError
  | |- logs _ (LogInfo _ _) _ _ => apply logs_LogInfo
  | |- logs _ (LogWarning _ _) _ _ => apply logs_LogWarning
  | |- logs _ (LogDebug _ _) _ _ => apply logs_LogDebug
  | |- logs _ (LogTrace _ _) _ _ => apply logs_LogTrace
  | |- logs _ (headerBlock _) _ _ => eassumption
  | |- logs _ (VerifyBip137SignatureWithParams _ _ _ _) _ _ => eassumption
  | |- _ => idtac
  end.

Lemma logs_headerBlock sigBytes :
  exists d lines, logs Sink_Printf (headerBlock sigBytes) d lines.
Proof.
  destruct sigBytes as [|b rest]; cbn [headerBlock].
  - do 2 eexists. apply logs_ret.
  - repeat match goal with
           | |- context [if ?c then _ else _] => destruct c
           end;
      cbv beta iota; do 2 eexists; logging.
Qed.

Lemma logs_WithParams address message signatureBase64 params :
  exists r lines,
    logs Sink_Printf
         (VerifyBip137SignatureWithParams
            address message signatureBase64 params) r lines.
Proof.
  unfold VerifyBip137SignatureWithParams.
  destruct (address =? ""); [do 2 eexists; logging|].
  destruct (message =? ""); [do 2 eexists; logging|].
  destruct (signatureBase64 =? ""); [do 2 eexists; logging|].
  destruct (base64.DecodeString signatureBase64) as [sigBytes|err];
    [|do 2 eexists; logging].
  destruct (logs_headerBlock sigBytes) as (d & hl & Hh).
  cbv zeta.
  destruct (verifier_VerifyWithChain _ _) as [[|] [err|]]; cbn [fst snd];
    do 2 eexists; logging.
Qed.

Lemma logs_VerifyBip137Signature address message signatureBase64 :
  exists r lines,
    logs Sink_Printf
         (VerifyBip137Signature address message signatureBase64) r lines.
Proof.
  destruct (logs_WithParams address message signatureBase64 MainNetParams)
    as (r & lines & H).
  unfold VerifyBip137Signature. do 2 eexists. logging.
Qed.

Lemma tagLevel_from_Error format : (LogLevelError <= tagLevel format)%Z.
Proof.
  unfold tagLevel.
  repeat match goal with
         | |- context [if ?c then _ else _] => destruct c
         end; discriminate.
Qed.

Lemma filter_below_Error level (lines : list (string * list Arg)) :
  (level <= LogLevelNone)%Z -> filter (visible level) lines = [].
Proof.
  intros Hl. induction lines as [|line rest IH]; [reflexivity|].
  cbn [filter]. rewrite IH.
  unfold visible, LogLevel_ge.
  pose proof (tagLevel_from_Error (fst line)) as Ht.
  destruct (Z.leb_spec (tagLevel (fst line)) level); [|reflexivity].
  unfold LogLevelNone, LogLevelError in *. lia.
Qed.

(** ** Further properties of the package *)

Lemma error_eqb_refl e : error_eqb e e = true.
Proof.
  induction e; cbn; rewrite ?String.eqb_refl, ?IHe, ?IHe1, ?IHe2; reflexivity.
Qed.

Lemma errors_Is_refl e : errors_Is e e = true.
Proof. destruct e; cbn; rewrite ?error_eqb_refl, ?String.eqb_refl; reflexivity. Qed.

Lemma errors_Is_Errorf_w prefix e : errors_Is (Errorf_w prefix e) e = true.
Proof. cbn [errors_Is]. rewrite errors_Is_refl. apply orb_true_r. Qed.

(** X1: what the address-based verification writes is a fixed sequence of
    lines, set by the arguments alone; the log level only selects the
    lines whose tag it reaches, keeping their order. *)
Theorem log_level_filters_lines address message signatureBase64 params :
  (exists lines,
      forall w,
        Logger (snd (VerifyBip137SignatureWithParams
                       address message signatureBase64 params w))
        = write Sink_Printf (filter (visible (currentLogLevel w)) lines)
                (Logger w)) /\
  (exists lines,
      forall w,
        Logger (snd (VerifyBip137Signature
                       address message signatureBase64 w))
        = write Sink_Printf (filter (visible (currentLogLevel w)) lines)
                (Logger w)).
Proof.
  split.
  - destruct (logs_WithParams address message signatureBase64 params)
      as (r & lines & H).
    exists lines. intro w. apply (H w).
  - destruct (logs_VerifyBip137Signature address message signatureBase64)
      as (r & lines & H).
    exists lines. intro w. apply (H w).
Qed.

(** X2: at [LogLevelNone], and at any level below, the address-based
    verification writes nothing at all. *)
Theorem silent_at_LogLevelNone address message signatureBase64 params w :
  (currentLogLevel w <= LogLevelNone)%Z ->
  Logger (snd (VerifyBip137SignatureWithParams
                 address message signatureBase64 params w)) = Logger w /\
  Logger (snd (VerifyBip137Signature address message signatureBase64 w))
  = Logger w.
Proof.
  intros Hl. split.
  - destruct (logs_WithParams address message signatureBase64 params)
      as (r & lines & H).
    destruct (H w) as (_ & _ & Hw).
    rewrite Hw, (filter_below_Error _ _ Hl). reflexivity.
  - destruct (logs_VerifyBip137Signature address message signatureBase64)
      as (r & lines & H).
    destruct (H w) as (_ & _ & Hw).
    rewrite Hw, (filter_below_Error _ _ Hl). reflexivity.
Qed.

(** X3: no verification changes the log level: what [SetLogLevel] set is
    what [GetLogLevel] returns after a run of either address-based entry
    point, of the network-parameterised public-key entry point or of the
    context wrapper. *)
Theorem log_level_survives_runs
    level address message signatureBase64 params pubKey ctx msg fired w :
  fst (GetLogLevel
         (snd (VerifyBip137SignatureWithParams
                 address message signatureBase64 params
                 (snd (SetLogLevel level w))))) = level /\
  fst (GetLogLevel
         (snd (VerifyBip137Signature address message signatureBase64
                 (snd (SetLogLevel level w))))) = level /\
  fst (GetLogLevel
         (snd (VerifyBip137SignatureWithPubKeyAndParams
                 pubKey message signatureBase64 params
                 (snd (SetLogLevel level w))))) = level /\
  fst (GetLogLevel
         (snd (VerifyBip137SignatureWithContext ctx msg fired
                 (snd (SetLogLevel level w))))) = level.
Proof.
  unfold GetLogLevel. cbn [fst].
  repeat apply conj.
  - destruct (WithParams_total address message signatureBase64 params)
      as (r & cs & Hr & _).
    rewrite (proj2 (proj2 (Hr _))). reflexivity.
  - destruct (WithParams_total address message signatureBase64 MainNetParams)
      as (r & cs & Hr & _).
    rewrite (proj2 (proj2 (VerifyBip137Signature_run _ _ _ _ _ Hr _))).
    reflexivity.
  - destruct (WithPubKeyAndParams_total pubKey message signatureBase64 params)
      as (r & cs & Hr & _).
    rewrite (proj2 (proj2 (Hr _))). reflexivity.
  - destruct fired.
    + rewrite (proj2 (proj2 (WithContext_ctx_Done ctx msg _))). reflexivity.
    + rewrite (proj2 (proj2 (WithContext_resultCh ctx msg _))). reflexivity.
Qed.

(** X5: a signature that is not base64 is turned away after the one
    attempt to decode it: the result is [false] with the decoder's error
    wrapped as "invalid base64 signature", [errors.Is] still finds the
    decoder's error in it, and neither the verifier nor, in the public-key
    entry point, the address derivation is reached. *)
Theorem invalid_base64_rejected
    address pk message signatureBase64 params err w :
  address <> "" -> message <> "" -> signatureBase64 <> "" ->
  base64.DecodeString signatureBase64 = inr err ->
  fst (VerifyBip137SignatureWithParams
         address message signatureBase64 params w)
  = (false, Some (Errorf_w "invalid base64 signature" err)) /\
  calls (snd (VerifyBip137SignatureWithParams
                address message signatureBase64 params w))
  = calls w ++ [CallBase64Decode signatureBase64] /\
  fst (VerifyBip137SignatureWithPubKeyAndParams
         (Some pk) message signatureBase64 params w)
  = (false, Some (Errorf_w "invalid base64 signature" err)) /\
  calls (snd (VerifyBip137SignatureWithPubKeyAndParams
                (Some pk) message signatureBase64 params w))
  = calls w ++ [CallBase64Decode signatureBase64] /\
  errors_Is (Errorf_w "invalid base64 signature" err) CorruptInputError = true.
Proof.
  intros Ha Hm Hs Hd.
  destruct (WithParams_bad_base64 address message signatureBase64 params err
              Ha Hm Hs Hd w) as (H1 & H2 & _).
  destruct (WithPubKeyAndParams_bad_base64 pk message signatureBase64 params
              err Hm Hs Hd w) as (H3 & H4 & _).
  repeat split; auto.
  unfold base64.DecodeString in Hd.
  destruct (base64.decodeQuanta _); [discriminate|].
  injection Hd as <-. reflexivity.
Qed.

(** X6: with three non-empty fields and a signature that is base64, of any
    length, the address-based verification calls the verifier exactly once,
    with the caller's own strings and network. A verdict without error comes
    back as it is; an error comes back with the verdict [false], can still
    be found by [errors.Is] and has its text after "signature verification
    error: ". *)
Theorem verifier_answer_passed_through
    address message signatureBase64 params sigBytes w :
  address <> "" -> message <> "" -> signatureBase64 <> "" ->
  base64.DecodeString signatureBase64 = inl sigBytes ->
  let answer :=
    verifier_VerifyWithChain
      (mkVerifierSignedMessage address message signatureBase64) params in
  let r := fst (VerifyBip137SignatureWithParams
                  address message signatureBase64 params w) in
  calls (snd (VerifyBip137SignatureWithParams
                address message signatureBase64 params w))
  = calls w ++
    [CallBase64Decode signatureBase64;
     CallVerifyWithChain address message signatureBase64 (Name params)] /\
  match snd answer with
  | None => r = (fst answer, None)
  | Some err =>
      exists e,
        r = (false, Some e) /\
        errors_Is e err = true /\
        Error e = ("signature verification error: " ++ Error err)%string
  end.
Proof.
  intros Ha Hm Hs Hd answer r.
  destruct (WithParams_decoded address message signatureBase64 params sigBytes
              Ha Hm Hs Hd w) as (Hf & Hc & _).
  split; [exact Hc|].
  subst r. rewrite Hf. fold answer. unfold wrapVerifierAnswer.
  destruct (snd answer) as [err|]; [|reflexivity].
  eexists. split; [reflexivity|]. split; [apply errors_Is_Errorf_w|reflexivity].
Qed.

(** X7: the network-parameterised public-key entry point checks the key
    first, then the message, then the signature: as soon as one of them is
    missing the error is the one of the first that is, its result is
    [false], and nothing has been decoded, derived or verified. *)
Theorem pubkey_validation_order pubKey message signatureBase64 params w :
  pubKey = None \/ message = "" \/ signatureBase64 = "" ->
  fst (VerifyBip137SignatureWithPubKeyAndParams
         pubKey message signatureBase64 params w)
  = (false,
     Some (match pubKey with
           | None => Errorf "empty public key"
           | Some _ =>
               if message =? "" then ErrEmptyMessage else ErrEmptySignature
           end)) /\
  calls (snd (VerifyBip137SignatureWithPubKeyAndParams
                pubKey message signatureBase64 params w)) = calls w.
Proof.
  intros H.
  destruct pubKey as [pk|].
  2:{ destruct (WithPubKeyAndParams_nil message signatureBase64 params w)
        as (H1 & H1' & _).
      rewrite app_nil_r in H1'. auto. }
  destruct (String.eqb_spec message "") as [->|Hm].
  { destruct (WithPubKeyAndParams_empty_message pk signatureBase64 params w)
      as (H1 & H1' & _).
    rewrite app_nil_r in H1'. auto. }
  destruct H as [H|[H|H]]; try discriminate; try contradiction.
  subst signatureBase64.
  destruct (WithPubKeyAndParams_empty_signature pk message params Hm w)
    as (H1 & H1' & _).
  rewrite app_nil_r in H1'. auto.
Qed.

(** X9: the context wrapper validates nothing itself. Whatever the three
    fields are, empty ones among them, it hands them to [verifier.Verify]
    once when the verification is what completes; [VerifyBip137Signature]
    turns the same empty address away with [ErrEmptyAddress] and calls
    nothing. *)
Theorem context_wrapper_skips_validation ctx msg message signatureBase64 w :
  calls (snd (VerifyBip137SignatureWithContext ctx msg case_resultCh w))
  = calls w ++ [CallVerify (Address msg) (Message msg) (Signature msg)] /\
  fst (VerifyBip137SignatureWithContext
         ctx (mkSignedMessage "" message signatureBase64) case_resultCh w)
  = wrapVerifierAnswer
      (verifier_Verify (mkVerifierSignedMessage "" message signatureBase64)) /\
  fst (VerifyBip137Signature "" message signatureBase64 w)
  = (false, Some ErrEmptyAddress) /\
  calls (snd (VerifyBip137Signature "" message signatureBase64 w)) = calls w.
Proof.
  destruct (WithContext_resultCh ctx msg w) as (_ & Hc & _).
  destruct (WithContext_resultCh
              ctx (mkSignedMessage "" message signatureBase64) w)
    as (Hf & _ & _).
  destruct (VerifyBip137Signature_run "" message signatureBase64 _ _
              (WithParams_empty_address message signatureBase64 MainNetParams)
              w) as (Hv & Hvc & _).
  rewrite app_nil_r in Hvc. auto.
Qed.

Lemma PubKeyAndContext_nil_resultCh ctx message signatureBase64 :
  returns (VerifyBip137SignatureWithPubKeyAndContext
             ctx None message signatureBase64 case_resultCh)
          (false,
           Some (Errorf_w "signature verification error"
                          (Errorf "empty public key"))) [].
Proof.
  unfold VerifyBip137SignatureWithPubKeyAndContext.
  eapply returns_seq; [quiet|]. cbv beta.
  eapply returns_seq; [destruct (ctx_Deadline ctx); quiet|]. cbv beta.
  eapply returns_seq; [quiet|]. cbv beta.
  eapply returns_seq; [apply WithPubKey_nil|]. cbv beta.
  eapply returns_seq; [quiet|]. cbv beta. cbn [fst snd]. quiet.
Qed.

(** X10: through the context wrapper of the public-key entry point a nil
    key is reported one level down: when the verification is what completes,
    the result is [false] with "signature verification error: empty public
    key", which is not a timeout for [errors.Is]; when the context's signal
    fires first, the result is the timeout error, key or no key. *)
Theorem context_pubkey_nil_key ctx pubKey message signatureBase64 w :
  fst (VerifyBip137SignatureWithPubKeyAndContext
         ctx None message signatureBase64 case_resultCh w)
  = (false,
     Some (Errorf_w "signature verification error"
                    (Errorf "empty public key"))) /\
  Error (Errorf_w "signature verification error" (Errorf "empty public key"))
  = "signature verification error: empty public key" /\
  errors_Is (Errorf_w "signature verification error"
                      (Errorf "empty public key"))
            ErrVerificationTimeout = false /\
  calls (snd (VerifyBip137SignatureWithPubKeyAndContext
                ctx None message signatureBase64 case_resultCh w)) = calls w /\
  fst (VerifyBip137SignatureWithPubKeyAndContext
         ctx pubKey message signatureBase64 case_ctx_Done w)
  = (false, Some (Errorf_w_v ErrVerificationTimeout (ctx_Err ctx))).
Proof.
  destruct (PubKeyAndContext_nil_resultCh ctx message signatureBase64 w)
    as (Hf & Hc & _).
  rewrite app_nil_r in Hc.
  pose proof (proj1 (PubKeyAndContext_ctx_Done
                       ctx pubKey message signatureBase64 w)) as Hd.
  repeat split; auto.
Qed.

(** X11: when the verification is what completes, the context wrapper of
    the public-key entry point returns the result of
    [VerifyBip137SignatureWithPubKey], run once: the verdict if there is no
    error, else [false] and the error wrapped as "signature verification
    error". *)
Theorem context_pubkey_wraps_result ctx pubKey message signatureBase64 w :
  exists w',
    calls w' = calls w /\
    fst (VerifyBip137SignatureWithPubKeyAndContext
           ctx pubKey message signatureBase64 case_resultCh w)
    = wrapVerifierAnswer
        (fst (VerifyBip137SignatureWithPubKey
                pubKey message signatureBase64 w')).
Proof.
  unfold VerifyBip137SignatureWithPubKeyAndContext.
  set (pre :=
         LogInfo "Starting context-based signature verification with public key"
                 [];;
         match ctx_Deadline ctx with
         | Some _ =>
             LogDebug "Context has deadline: %s (timeout in %s)"
                      [ArgTime; ArgTime]
         | None => LogDebug "Context has no deadline" []
         end;;
         LogDebug "Starting verification goroutine" []).
  assert (Hpre : returns pre tt []).
  { subst pre. eapply returns_seq; [quiet|]. cbv beta.
    eapply returns_seq; [destruct (ctx_Deadline ctx); quiet|]. cbv beta.
    quiet. }
  destruct (Hpre w) as (_ & Hc & _). rewrite app_nil_r in Hc.
  exists (snd (pre w)). split; [exact Hc|].
  unfold pre, bind. cbv beta. unfold wrapVerifierAnswer.
  match goal with
  | |- context [snd (fst ?x)] => destruct (fst x) as [[|] [e|]]
  end; reflexivity.
Qed.

(** X12: the helper of the package tests recognises every result of the
    timeout path of both context wrappers, whatever the reason the context
    gives. *)
Theorem isTimeoutError_on_timeouts
    ctx msg pubKey message signatureBase64 w :
  isTimeoutError
    (snd (fst (VerifyBip137SignatureWithContext ctx msg case_ctx_Done w)))
  = Some true /\
  isTimeoutError
    (snd (fst (VerifyBip137SignatureWithPubKeyAndContext
                 ctx pubKey message signatureBase64 case_ctx_Done w)))
  = Some true.
Proof.
  rewrite (proj1 (WithContext_ctx_Done ctx msg w)).
  rewrite (proj1 (PubKeyAndContext_ctx_Done
                    ctx pubKey message signatureBase64 w)).
  split; reflexivity.
Qed.

(** X13: on a result of the completion path the helper never answers
    [true]: there is no error, or the text starts with "signature
    verification error: ", which the helper tells apart or, when fewer than
    two bytes follow, cannot slice. *)
Theorem isTimeoutError_not_on_results ctx msg w :
  isTimeoutError
    (snd (fst (VerifyBip137SignatureWithContext ctx msg case_resultCh w)))
  <> Some true.
Proof.
  rewrite (proj1 (WithContext_resultCh ctx msg w)).
  unfold wrapVerifierAnswer.
  destruct (snd (verifier_Verify _)) as [err|]; cbn [snd]; [|discriminate].
  unfold isTimeoutError. cbn [Error].
  destruct (Error err) as [|c1 [|c2 rest]]; cbn; discriminate.
Qed.

(** X14: the helper cannot be asked about a validation error: the texts of
    [ErrEmptyAddress], [ErrEmptyMessage] and [ErrEmptySignature] are shorter
    than the prefix it slices off, so on every result of the address-based
    verification with an empty field the slice is out of range. *)
Theorem isTimeoutError_panics_on_validation_errors
    address message signatureBase64 params w :
  address = "" \/ message = "" \/ signatureBase64 = "" ->
  isTimeoutError
    (snd (fst (VerifyBip137SignatureWithParams
                 address message signatureBase64 params w))) = None.
Proof.
  intros H.
  destruct (String.eqb_spec address "") as [->|Ha].
  { rewrite (proj1 (WithParams_empty_address _ _ _ w)). reflexivity. }
  destruct (String.eqb_spec message "") as [->|Hm].
  { rewrite (proj1 (WithParams_empty_message _ _ _ Ha w)). reflexivity. }
  destruct H as [H|[H|H]]; try contradiction. subst signatureBase64.
  rewrite (proj1 (WithParams_empty_signature _ _ _ Ha Hm w)). reflexivity.
Qed.

(** X15: the recovery id that the header block reports is the header byte
    modulo 4, so below 4; counted from 27, where the classes start, it runs
    three ahead: the first header of each class (27, 31, 35, 39) is reported
    with recovery id 3, the next ones with 0, 1, 2. *)
Theorem recovery_id_offset b rest w :
  let h := Byte.to_N b in
  (27 <= h)%N ->
  exists d,
    fst (headerBlock (b :: rest) w) = Some d /\
    (recID d < 4)%N /\
    recID d = ((h - 27 + 3) mod 4)%N.
Proof.
  intros h Hh.
  pose proof (returns_headerBlock_cons b rest w) as (Hf & _).
  cbv zeta in Hf. fold h in Hf.
  eexists. split; [exact Hf|]. cbn [recID].
  change 3%N with (N.ones 2) at 1 2. rewrite N.land_ones.
  change (2 ^ 2)%N with 4%N.
  split; [apply N.mod_lt; discriminate|].
  replace h with (h - 27 + 3 + 6 * 4)%N at 1 by lia.
  apply N.Div0.mod_add.
Qed.

Lemma filter_newlines (l : list ascii) :
  forallb base64.is_newline l = true ->
  filter (fun c => negb (base64.is_newline c)) l = [].
Proof.
  induction l as [|c l IH]; [reflexivity|].
  cbn [forallb filter]. intros H. apply andb_true_iff in H as [Hc Hl].
  rewrite Hc. cbn [negb]. auto.
Qed.

(** X16: a signature made of line breaks only is not an empty signature
    for the check: it passes validation, decodes to no byte at all, the
    header block is skipped, and it reaches the verifier like any other. *)
Theorem line_breaks_only_signature
    address message signatureBase64 params w :
  address <> "" -> message <> "" -> signatureBase64 <> "" ->
  forallb base64.is_newline (list_ascii_of_string signatureBase64) = true ->
  base64.DecodeString signatureBase64 = inl [] /\
  fst (VerifyBip137SignatureWithParams
         address message signatureBase64 params w)
  = wrapVerifierAnswer
      (verifier_VerifyWithChain
         (mkVerifierSignedMessage address message signatureBase64) params) /\
  calls (snd (VerifyBip137SignatureWithParams
                address message signatureBase64 params w))
  = calls w ++
    [CallBase64Decode signatureBase64;
     CallVerifyWithChain address message signatureBase64 (Name params)].
Proof.
  intros Ha Hm Hs Hn.
  assert (Hd : base64.DecodeString signatureBase64 = inl []).
  { unfold base64.DecodeString. rewrite (filter_newlines _ Hn). reflexivity. }
  destruct (WithParams_decoded address message signatureBase64 params []
              Ha Hm Hs Hd w) as (Hf & Hc & _).
  auto.
Qed.

End Package.

(** ** Runs on the concrete instance *)

Example DecodeString_sample :
  base64.DecodeString Sample.signature = inl Sample.sigBytes.
Proof. reflexivity. Qed.

Example DecodeString_testnet_placeholder :
  base64.DecodeString "Base64Signature==" = inr CorruptInputError.
Proof. reflexivity. Qed.

Example DecodeString_short :
  base64.DecodeString "AAAA" = inl [x00; x00; x00].
Proof. reflexivity. Qed.

Example DumpHex_sample : DumpHex [x20; x93; xff] = "20 93 ff".
Proof. reflexivity. Qed.

Example MaskSensitive_sample :
  MaskSensitive "KyHQRjPpeBdizD7Q" = "KyHQ...zD7Q" /\ MaskSensitive "short" = "****".
Proof. split; reflexivity. Qed.

(** The valid vector of the package tests. *)
Example VerifyBip137Signature_test_vector :
  fst (VerifyBip137Signature Sample.Sink Sample.Printf Sample.VerifyWithChain
         Sample.testAddress Sample.message Sample.testSignature Sample.world)
  = (true, None).
Proof. reflexivity. Qed.

(** At level Info a successful run logs its start and its success. *)
Example VerifyBip137Signature_test_vector_log :
  Logger (snd (VerifyBip137Signature
                 Sample.Sink Sample.Printf Sample.VerifyWithChain
                 Sample.testAddress Sample.message Sample.testSignature
                 Sample.world))
  = [("[INFO] Starting BIP-0137 signature verification", []);
     ("[INFO] Signature verification successful", [])].
Proof. reflexivity. Qed.

(** The same run with logging off and at level Trace: no line against
    eighteen, and one result. *)
Example VerifyBip137Signature_test_vector_levels :
  Logger (snd (VerifyBip137Signature
                 Sample.Sink Sample.Printf Sample.VerifyWithChain
                 Sample.testAddress Sample.message Sample.testSignature
                 (snd (SetLogLevel Sample.Sink LogLevelNone Sample.world))))
  = [] /\
  List.length
    (Logger (snd (VerifyBip137Signature
                    Sample.Sink Sample.Printf Sample.VerifyWithChain
                    Sample.testAddress Sample.message Sample.testSignature
                    (snd (SetLogLevel Sample.Sink LogLevelTrace
                                      Sample.world)))))
  = 18%nat /\
  fst (VerifyBip137Signature
         Sample.Sink Sample.Printf Sample.VerifyWithChain
         Sample.testAddress Sample.message Sample.testSignature
         (snd (SetLogLevel Sample.Sink LogLevelNone Sample.world)))
  = fst (VerifyBip137Signature
           Sample.Sink Sample.Printf Sample.VerifyWithChain
           Sample.testAddress Sample.message Sample.testSignature
           (snd (SetLogLevel Sample.Sink LogLevelTrace Sample.world))).
Proof. repeat split; reflexivity. Qed.

(** ** Two loggers, one result *)

(** The result and the calls of [VerifyBip137SignatureWithParams] are fixed
    by its arguments alone, for every logger at once. *)
Lemma WithParams_uniform vwc address message signatureBase64 params :
  exists r cs,
    forall Sink Sink_Printf,
      returns (VerifyBip137SignatureWithParams
                 Sink Sink_Printf vwc address message signatureBase64 params)
              r cs.
Proof.
  destruct (String.eqb_spec address "") as [->|Ha].
  { do 2 eexists. intros. apply WithParams_empty_address. }
  destruct (String.eqb_spec message "") as [->|Hm].
  { do 2 eexists. intros. apply WithParams_empty_message; auto. }
  destruct (String.eqb_spec signatureBase64 "") as [->|Hs].
  { do 2 eexists. intros. apply WithParams_empty_signature; auto. }
  destruct (base64.DecodeString signatureBase64) as [sigBytes|err] eqn:Hd.
  - do 2 eexists. intros. eapply WithParams_decoded; eauto.
  - do 2 eexists. intros. eapply WithParams_bad_base64; eauto.
Qed.

Lemma returns_same_result {S1 S2 A} (m1 : M S1 A) (m2 : M S2 A) a cs1 cs2 :
  returns m1 a cs1 -> returns m2 a cs2 -> same_result m1 m2.
Proof.
  intros H1 H2 w1 w2.
  rewrite (proj1 (H1 w1)), (proj1 (H2 w2)). reflexivity.
Qed.

(** With loggers that are there: for fixed address, message, signature and
    network, two runs of the address-based verification that differ in the
    log level, in the logger and in what it does with its lines return the
    same (bool, error) result and make the same calls. The level is read,
    but only to decide what is logged. *)
Lemma present_loggers_agree :
  forall (S1 S2 : Type)
         (Printf1 : S1 -> string -> list Arg -> S1)
         (Printf2 : S2 -> string -> list Arg -> S2)
         (vwc : verifier_SignedMessage -> Params -> outcome)
         (address message signatureBase64 : string) (params : Params)
         (w1 : World S1) (w2 : World S2),
    fst (VerifyBip137SignatureWithParams
           S1 Printf1 vwc address message signatureBase64 params w1)
    = fst (VerifyBip137SignatureWithParams
             S2 Printf2 vwc address message signatureBase64 params w2) /\
    fst (VerifyBip137Signature
           S1 Printf1 vwc address message signatureBase64 w1)
    = fst (VerifyBip137Signature
             S2 Printf2 vwc address message signatureBase64 w2) /\
    exists cs,
      calls (snd (VerifyBip137SignatureWithParams
                    S1 Printf1 vwc address message signatureBase64 params w1))
      = calls w1 ++ cs /\
      calls (snd (VerifyBip137SignatureWithParams
                    S2 Printf2 vwc address message signatureBase64 params w2))
      = calls w2 ++ cs.
Proof.
  intros.
  destruct (WithParams_uniform vwc address message signatureBase64 params)
    as (r & cs & Hr).
  destruct (WithParams_uniform vwc address message signatureBase64
              MainNetParams) as (r' & cs' & Hr').
  split; [|split].
  - apply (returns_same_result _ _ r cs cs (Hr S1 Printf1) (Hr S2 Printf2)).
  - apply (returns_same_result _ _ r' cs' cs').
    + apply VerifyBip137Signature_run, Hr'.
    + apply VerifyBip137Signature_run, Hr'.
  - exists cs. split; [apply (Hr S1 Printf1 w1)|apply (Hr S2 Printf2 w2)].
Qed.

(** ** The claims on concrete inputs *)

(** The example of the repository run through
    [VerifyBip137SignatureWithPubKeyAndParams]. *)
Lemma pubkey_entry_points_delegate_witness :
  (exists w',
      calls w' = calls Sample.world
                 ++ [CallEnhancedVerify Sample.message Sample.signature] /\
      fst (VerifyBip137SignatureWithPubKey
             Sample.Sink Sample.Printf Sample.PublicKey
             Sample.SerializeCompressed Sample.EnhancedVerify
             (Some Sample.pubKey) Sample.message Sample.signature Sample.world)
      = fst (Sample.EnhancedVerify
               Sample.pubKey Sample.message Sample.signature w')) /\
  fst (VerifyBip137SignatureWithPubKeyAndParams
         Sample.Sink Sample.Printf Sample.PublicKey Sample.SerializeCompressed
         Sample.Hash160 Sample.AddressPubKeyHash Sample.NewAddressPubKeyHash
         Sample.EncodeAddress Sample.VerifyWithChain
         (Some Sample.pubKey) Sample.message Sample.signature MainNetParams
         Sample.world)
  = fst (VerifyBip137SignatureWithParams
           Sample.Sink Sample.Printf Sample.VerifyWithChain
           (Sample.EncodeAddress Sample.pubKeyHash)
           Sample.message Sample.signature MainNetParams Sample.world) /\
  fst (VerifyBip137SignatureWithPubKeyAndParams
         Sample.Sink Sample.Printf Sample.PublicKey Sample.SerializeCompressed
         Sample.Hash160 Sample.AddressPubKeyHash Sample.NewAddressPubKeyHash
         Sample.EncodeAddress Sample.VerifyWithChain
         (Some Sample.pubKey) Sample.message Sample.signature MainNetParams
         Sample.world)
  = wrapVerifierAnswer
      (Sample.VerifyWithChain
         (mkVerifierSignedMessage
            (Sample.EncodeAddress Sample.pubKeyHash)
            Sample.message Sample.signature) MainNetParams) /\
  calls (snd (VerifyBip137SignatureWithPubKeyAndParams
                Sample.Sink Sample.Printf Sample.PublicKey
                Sample.SerializeCompressed Sample.Hash160
                Sample.AddressPubKeyHash Sample.NewAddressPubKeyHash
                Sample.EncodeAddress Sample.VerifyWithChain
                (Some Sample.pubKey) Sample.message Sample.signature
                MainNetParams Sample.world))
  = calls Sample.world ++
    [CallBase64Decode Sample.signature;
     CallHash160 (Sample.SerializeCompressed Sample.pubKey);
     CallNewAddressPubKeyHash
       (Sample.Hash160 (Sample.SerializeCompressed Sample.pubKey))
       (Name MainNetParams);
     CallBase64Decode Sample.signature;
     CallVerifyWithChain (Sample.EncodeAddress Sample.pubKeyHash)
                         Sample.message Sample.signature (Name MainNetParams)].
Proof.
  apply (pubkey_entry_points_delegate
           Sample.Sink Sample.Printf Sample.PublicKey
           Sample.SerializeCompressed Sample.Hash160 Sample.AddressPubKeyHash
           Sample.NewAddressPubKeyHash Sample.EncodeAddress
           Sample.VerifyWithChain Sample.EnhancedVerify
           Sample.pubKey Sample.message Sample.signature MainNetParams
           Sample.sigBytes Sample.pubKeyHash Sample.world).
  - discriminate.
  - discriminate.
  - reflexivity.
  - reflexivity.
  - discriminate.
Defined.

(** C2, as stated, fails on the example of the repository: the header byte
    0x20 of the signature is classified without ambiguity (compressed
    P2PKH), and still [VerifyBip137SignatureWithPubKeyAndParams] derives the
    address of the key and goes through the address-based verification; no
    key is compared. *)
Lemma pubkey_params_derives_address_on_clear_header :
  fst (headerBlock Sample.Sink Sample.Printf Sample.sigBytes Sample.world)
  = Some (mkHeaderDetails 0 true "P2PKH (compressed)") /\
  calls (snd (VerifyBip137SignatureWithPubKeyAndParams
                Sample.Sink Sample.Printf Sample.PublicKey
                Sample.SerializeCompressed Sample.Hash160
                Sample.AddressPubKeyHash Sample.NewAddressPubKeyHash
                Sample.EncodeAddress Sample.VerifyWithChain
                (Some Sample.pubKey) Sample.message Sample.signature
                MainNetParams Sample.world))
  = [CallBase64Decode Sample.signature;
     CallHash160 Sample.pubKey;
     CallNewAddressPubKeyHash Sample.pubKeyHash "mainnet";
     CallBase64Decode Sample.signature;
     CallVerifyWithChain Sample.address Sample.message Sample.signature
                         "mainnet"] /\
  derives_address
    (calls (snd (VerifyBip137SignatureWithPubKeyAndParams
                   Sample.Sink Sample.Printf Sample.PublicKey
                   Sample.SerializeCompressed Sample.Hash160
                   Sample.AddressPubKeyHash Sample.NewAddressPubKeyHash
                   Sample.EncodeAddress Sample.VerifyWithChain
                   (Some Sample.pubKey) Sample.message Sample.signature
                   MainNetParams Sample.world)))
  = true.
Proof. repeat split; vm_compute; reflexivity. Qed.

(** C4, as stated, fails twice. A cancelled context gives the same error as
    a deadline: it is [ErrVerificationTimeout] for [errors.Is], and the
    reason [context.Canceled] is only printed into it, not wrapped. And an
    error of the verification that did complete (here that of the package
    test "Normal context", whose address is empty) does not come back
    untouched but wrapped. *)
Lemma context_cancellation_reported_as_timeout :
  (fst (VerifyBip137SignatureWithContext
          Sample.Sink Sample.Printf Sample.Verify
          (mkContext None context_Canceled)
          (mkSignedMessage Sample.address Sample.message Sample.signature)
          case_ctx_Done Sample.world)
   = (false, Some (Errorf_w_v ErrVerificationTimeout context_Canceled)) /\
   fst (VerifyBip137SignatureWithContext
          Sample.Sink Sample.Printf Sample.Verify
          (mkContext (Some 1%N) context_DeadlineExceeded)
          (mkSignedMessage Sample.address Sample.message Sample.signature)
          case_ctx_Done Sample.world)
   = (false, Some (Errorf_w_v ErrVerificationTimeout context_DeadlineExceeded)) /\
   errors_Is (Errorf_w_v ErrVerificationTimeout context_Canceled)
             ErrVerificationTimeout = true /\
   errors_Is (Errorf_w_v ErrVerificationTimeout context_Canceled)
             context_Canceled = false /\
   Error (Errorf_w_v ErrVerificationTimeout context_Canceled)
   = "signature verification timed out: context canceled") /\
  (Sample.Verify (mkVerifierSignedMessage "" "Test message" "Base64Signature==")
   = (false,
      Some (Errorf_w "could not decode address"
                     (ExternalError "decoded address is of unknown format"))) /\
   fst (VerifyBip137SignatureWithContext
          Sample.Sink Sample.Printf Sample.Verify
          (mkContext None context_Canceled)
          (mkSignedMessage "" "Test message" "Base64Signature==")
          case_resultCh Sample.world)
   = (false,
      Some (Errorf_w "signature verification error"
              (Errorf_w "could not decode address"
                 (ExternalError "decoded address is of unknown format")))) /\
   fst (VerifyBip137SignatureWithContext
          Sample.Sink Sample.Printf Sample.Verify
          (mkContext None context_Canceled)
          (mkSignedMessage "" "Test message" "Base64Signature==")
          case_resultCh Sample.world)
   <> Sample.Verify
        (mkVerifierSignedMessage "" "Test message" "Base64Signature==")).
Proof.
  split; [repeat split; reflexivity|].
  split; [reflexivity|]. split; [reflexivity|].
  vm_compute. discriminate.
Qed.

(** The header byte 0x20 of the example signature. *)
Lemma header_classification_witness :
  let h := Byte.to_N Sample.headerByte in
  exists d,
    fst (headerBlock Sample.Sink Sample.Printf
           (Sample.headerByte :: Sample.signatureRS) Sample.world) = Some d /\
    recID d = N.land h 3 /\
    ((27 <= h <= 30)%N ->
     addrType d = "P2PKH (uncompressed)" /\ isCompressed d = false) /\
    ((31 <= h <= 34)%N ->
     addrType d = "P2PKH (compressed)" /\ isCompressed d = true) /\
    ((35 <= h <= 38)%N ->
     addrType d = "P2SH-P2WPKH (SegWit over P2SH)" /\ isCompressed d = true) /\
    ((39 <= h <= 42)%N ->
     addrType d = "P2WPKH (native SegWit)" /\ isCompressed d = true) /\
    ((h < 27 \/ 42 < h)%N ->
     addrType d = "Unknown" /\ isCompressed d = false).
Proof.
  apply (header_classification Sample.Sink Sample.Printf
           Sample.headerByte Sample.signatureRS Sample.world).
  reflexivity.
Defined.

(** The example address and message next to empty fields. *)
Lemma empty_inputs_rejected_witness :
  (fst (VerifyBip137SignatureWithParams
          Sample.Sink Sample.Printf Sample.VerifyWithChain
          "" Sample.message Sample.signature MainNetParams Sample.world)
   = (false, Some ErrEmptyAddress) /\
   calls (snd (VerifyBip137SignatureWithParams
                 Sample.Sink Sample.Printf Sample.VerifyWithChain
                 "" Sample.message Sample.signature MainNetParams
                 Sample.world)) = calls Sample.world) /\
  (fst (VerifyBip137SignatureWithParams
          Sample.Sink Sample.Printf Sample.VerifyWithChain
          Sample.address "" Sample.signature MainNetParams Sample.world)
   = (false, Some ErrEmptyMessage) /\
   calls (snd (VerifyBip137SignatureWithParams
                 Sample.Sink Sample.Printf Sample.VerifyWithChain
                 Sample.address "" Sample.signature MainNetParams
                 Sample.world)) = calls Sample.world) /\
  (fst (VerifyBip137SignatureWithParams
          Sample.Sink Sample.Printf Sample.VerifyWithChain
          Sample.address Sample.message "" MainNetParams Sample.world)
   = (false, Some ErrEmptySignature) /\
   calls (snd (VerifyBip137SignatureWithParams
                 Sample.Sink Sample.Printf Sample.VerifyWithChain
                 Sample.address Sample.message "" MainNetParams
                 Sample.world)) = calls Sample.world).
Proof.
  apply (empty_inputs_rejected
           Sample.Sink Sample.Printf Sample.VerifyWithChain
           Sample.address Sample.message Sample.signature MainNetParams
           Sample.world).
  - discriminate.
  - discriminate.
Defined.

Lemma Sample_EnhancedVerify_definitive pk message signatureBase64 w :
  definitive (fst (Sample.EnhancedVerify pk message signatureBase64 w)) = true.
Proof.
  unfold Sample.EnhancedVerify. cbn [fst].
  destruct (Sample.bytes_eqb pk Sample.pubKey && (message =? Sample.message)
            && (signatureBase64 =? Sample.signature))%bool; reflexivity.
Qed.

(** All three fields empty: the error is the one of the address. *)
Lemma validation_order_witness :
  fst (VerifyBip137SignatureWithParams
         Sample.Sink Sample.Printf Sample.VerifyWithChain
         "" "" "" MainNetParams Sample.world)
  = (false, Some ErrEmptyAddress) /\
  calls (snd (VerifyBip137SignatureWithParams
                Sample.Sink Sample.Printf Sample.VerifyWithChain
                "" "" "" MainNetParams Sample.world)) = calls Sample.world.
Proof.
  apply (validation_order
           Sample.Sink Sample.Printf Sample.VerifyWithChain
           "" "" "" MainNetParams Sample.world).
  left. reflexivity.
Defined.

(** Message and signature empty, the address not: the error is the one of
    the message. *)
Example validation_order_message_before_signature :
  fst (VerifyBip137SignatureWithParams
         Sample.Sink Sample.Printf Sample.VerifyWithChain
         Sample.address "" "" MainNetParams Sample.world)
  = (false, Some ErrEmptyMessage).
Proof. reflexivity. Qed.

(** ** Further properties: the default network and the helpers of logger.go *)

(** X4: [VerifyBip137Signature] is the verification on Bitcoin mainnet: it
    returns what [VerifyBip137SignatureWithParams] returns for
    [MainNetParams] and makes the same calls. *)
Theorem default_network_is_mainnet :
  forall (Sink : Type) (Printf : Sink -> string -> list Arg -> Sink)
         (vwc : verifier_SignedMessage -> Params -> outcome)
         (address message signatureBase64 : string) (w : World Sink),
    fst (VerifyBip137Signature Sink Printf vwc
           address message signatureBase64 w)
    = fst (VerifyBip137SignatureWithParams Sink Printf vwc
             address message signatureBase64 MainNetParams w) /\
    calls (snd (VerifyBip137Signature Sink Printf vwc
                  address message signatureBase64 w))
    = calls (snd (VerifyBip137SignatureWithParams Sink Printf vwc
                    address message signatureBase64 MainNetParams w)).
Proof.
  intros.
  destruct (WithParams_uniform vwc address message signatureBase64
              MainNetParams) as (r & cs & Hr).
  destruct (Hr Sink Printf w) as (H1 & H2 & _).
  destruct (VerifyBip137Signature_run Sink Printf vwc
              address message signatureBase64 r cs (Hr Sink Printf) w)
    as (H3 & H4 & _).
  rewrite H1, H2, H3, H4. auto.
Qed.

Lemma length_dump_cons b rest :
  String.length (String.concat " " (map Sprintf_02x (b :: rest)))
  = (3 * List.length rest + 2)%nat.
Proof.
  revert b. induction rest as [|b' rest IH]; intro b; [reflexivity|].
  specialize (IH b').
  change (String.concat " " (map Sprintf_02x (b :: b' :: rest)))
    with (Sprintf_02x b
          ++ " " ++ String.concat " " (map Sprintf_02x (b' :: rest)))%string.
  unfold Sprintf_02x at 1. cbn [append String.length].
  rewrite IH. cbn [List.length]. lia.
Qed.

(** X17: the dump of non-empty data takes two hexadecimal digits for each
    byte and one space between two bytes, 3n - 1 characters for n bytes;
    the dump of no data is the text "<empty>". *)
Theorem DumpHex_length data :
  data <> [] ->
  String.length (DumpHex data) = (3 * List.length data - 1)%nat /\
  DumpHex [] = "<empty>".
Proof.
  intros Hd. split; [|reflexivity].
  destruct data as [|b rest]; [contradiction|].
  change (DumpHex (b :: rest))
    with (String.concat " " (map Sprintf_02x (b :: rest))).
  rewrite length_dump_cons. cbn [List.length]. lia.
Qed.

Lemma byteOfHex_Sprintf_02x b :
  byteOfHex (hexDigit (Byte.to_N b / 16)) (hexDigit (Byte.to_N b mod 16)) = b.
Proof. destruct b; reflexivity. Qed.

Lemma parseDump_dump_cons b rest :
  parseDump (String.concat " " (map Sprintf_02x (b :: rest))) = b :: rest.
Proof.
  revert b. induction rest as [|b' rest IH]; intro b.
  - cbn [map String.concat]. unfold Sprintf_02x. cbn [parseDump].
    rewrite byteOfHex_Sprintf_02x. reflexivity.
  - specialize (IH b').
    change (String.concat " " (map Sprintf_02x (b :: b' :: rest)))
      with (Sprintf_02x b
            ++ " " ++ String.concat " " (map Sprintf_02x (b' :: rest)))%string.
    unfold Sprintf_02x at 1. cbn [append parseDump].
    rewrite byteOfHex_Sprintf_02x, IH. reflexivity.
Qed.

(** X18: a dump loses nothing: two byte sequences with the same dump are
    the same sequence, the empty one included. *)
Theorem DumpHex_injective d1 d2 :
  DumpHex d1 = DumpHex d2 -> d1 = d2.
Proof.
  intros H.
  destruct d1 as [|b1 r1], d2 as [|b2 r2]; [reflexivity| | |].
  - apply (f_equal String.length) in H.
    change (DumpHex (b2 :: r2))
      with (String.concat " " (map Sprintf_02x (b2 :: r2))) in H.
    rewrite length_dump_cons in H. cbn in H. lia.
  - apply (f_equal String.length) in H.
    change (DumpHex (b1 :: r1))
      with (String.concat " " (map Sprintf_02x (b1 :: r1))) in H.
    rewrite length_dump_cons in H. cbn in H. lia.
  - change (DumpHex (b1 :: r1))
      with (String.concat " " (map Sprintf_02x (b1 :: r1))) in H.
    change (DumpHex (b2 :: r2))
      with (String.concat " " (map Sprintf_02x (b2 :: r2))) in H.
    apply (f_equal parseDump) in H.
    rewrite !parseDump_dump_cons in H. exact H.
Qed.

Lemma length_append_string (s1 s2 : string) :
  String.length (s1 ++ s2) = (String.length s1 + String.length s2)%nat.
Proof. induction s1 as [|c s1 IH]; cbn; [reflexivity|]. rewrite IH. reflexivity. Qed.

Lemma length_substring (s : string) :
  forall n m, (n + m <= String.length s)%nat ->
              String.length (substring n m s) = m.
Proof.
  induction s as [|c s IH]; intros n m H; cbn in H.
  - assert (n = 0 /\ m = 0)%nat as [-> ->] by lia. reflexivity.
  - destruct n as [|n].
    + destruct m as [|m]; [reflexivity|]. cbn. rewrite IH; [reflexivity|lia].
    + cbn. apply IH. lia.
Qed.

(** X19: a masked string is 4 characters long when the secret has at most
    8 bytes and 11 characters long otherwise: beyond the first and last
    four bytes of a longer secret the mask shows nothing, its length
    included. *)
Theorem MaskSensitive_length data :
  String.length (MaskSensitive data)
  = if Nat.leb (String.length data) 8 then 4%nat else 11%nat.
Proof.
  unfold MaskSensitive.
  destruct (Nat.leb_spec (String.length data) 8) as [H|H]; [reflexivity|].
  rewrite !length_append_string, !length_substring by lia. reflexivity.
Qed.

(** ** The further properties on concrete inputs *)

(** The valid vector of the package tests with logging off. *)
Lemma silent_at_LogLevelNone_witness :
  Logger (snd (VerifyBip137SignatureWithParams
                 Sample.Sink Sample.Printf Sample.VerifyWithChain
                 Sample.testAddress Sample.message Sample.testSignature
                 MainNetParams (mkWorld LogLevelNone [] []))) = [] /\
  Logger (snd (VerifyBip137Signature
                 Sample.Sink Sample.Printf Sample.VerifyWithChain
                 Sample.testAddress Sample.message Sample.testSignature
                 (mkWorld LogLevelNone [] []))) = [].
Proof.
  apply (silent_at_LogLevelNone
           Sample.Sink Sample.Printf Sample.VerifyWithChain
           Sample.testAddress Sample.message Sample.testSignature
           MainNetParams (mkWorld LogLevelNone [] [])).
  cbn. lia.
Defined.

(** The placeholder signature of the package tests. *)
Lemma invalid_base64_rejected_witness :
  fst (VerifyBip137SignatureWithParams
         Sample.Sink Sample.Printf Sample.VerifyWithChain
         Sample.address Sample.message "Base64Signature==" MainNetParams
         Sample.world)
  = (false, Some (Errorf_w "invalid base64 signature" CorruptInputError)).
Proof.
  refine (proj1 (invalid_base64_rejected
                   Sample.Sink Sample.Printf Sample.PublicKey
                   Sample.SerializeCompressed Sample.Hash160
                   Sample.AddressPubKeyHash Sample.NewAddressPubKeyHash
                   Sample.EncodeAddress Sample.VerifyWithChain
                   Sample.address Sample.pubKey Sample.message
                   "Base64Signature==" MainNetParams CorruptInputError
                   Sample.world _ _ _ _)).
  - discriminate.
  - discriminate.
  - discriminate.
  - reflexivity.
Defined.

(** The example of the repository, address-based. *)
Lemma verifier_answer_passed_through_witness :
  calls (snd (VerifyBip137SignatureWithParams
                Sample.Sink Sample.Printf Sample.VerifyWithChain
                Sample.address Sample.message Sample.signature MainNetParams
                Sample.world))
  = calls Sample.world ++
    [CallBase64Decode Sample.signature;
     CallVerifyWithChain Sample.address Sample.message Sample.signature
                         (Name MainNetParams)].
Proof.
  refine (proj1 (verifier_answer_passed_through
                   Sample.Sink Sample.Printf Sample.VerifyWithChain
                   Sample.address Sample.message Sample.signature
                   MainNetParams Sample.sigBytes Sample.world _ _ _ _)).
  - discriminate.
  - discriminate.
  - discriminate.
  - reflexivity.
Defined.

(** No key, no message, no signature: the error is the one of the key. *)
Lemma pubkey_validation_order_witness :
  fst (VerifyBip137SignatureWithPubKeyAndParams
         Sample.Sink Sample.Printf Sample.PublicKey Sample.SerializeCompressed
         Sample.Hash160 Sample.AddressPubKeyHash Sample.NewAddressPubKeyHash
         Sample.EncodeAddress Sample.VerifyWithChain
         None "" "" MainNetParams Sample.world)
  = (false, Some (Errorf "empty public key")) /\
  calls (snd (VerifyBip137SignatureWithPubKeyAndParams
                Sample.Sink Sample.Printf Sample.PublicKey
                Sample.SerializeCompressed Sample.Hash160
                Sample.AddressPubKeyHash Sample.NewAddressPubKeyHash
                Sample.EncodeAddress Sample.VerifyWithChain
                None "" "" MainNetParams Sample.world))
  = calls Sample.world.
Proof.
  apply (pubkey_validation_order
           Sample.Sink Sample.Printf Sample.PublicKey
           Sample.SerializeCompressed Sample.Hash160 Sample.AddressPubKeyHash
           Sample.NewAddressPubKeyHash Sample.EncodeAddress
           Sample.VerifyWithChain
           None "" "" MainNetParams Sample.world).
  left. reflexivity.
Defined.

(** The row "Empty address" of the package tests. *)
Lemma isTimeoutError_panics_on_validation_errors_witness :
  isTimeoutError
    (snd (fst (VerifyBip137SignatureWithParams
                 Sample.Sink Sample.Printf Sample.VerifyWithChain
                 "" "Test message" "Base64Signature==" MainNetParams
                 Sample.world))) = None.
Proof.
  apply (isTimeoutError_panics_on_validation_errors
           Sample.Sink Sample.Printf Sample.VerifyWithChain
           "" "Test message" "Base64Signature==" MainNetParams Sample.world).
  left. reflexivity.
Defined.

(** The header byte 0x20 = 32 of the example signature is the second of the
    class of compressed P2PKH, and is reported with recovery id 0. *)
Lemma recovery_id_offset_witness :
  exists d,
    fst (headerBlock Sample.Sink Sample.Printf
           (Sample.headerByte :: Sample.signatureRS) Sample.world) = Some d /\
    (recID d < 4)%N /\
    recID d = ((Byte.to_N Sample.headerByte - 27 + 3) mod 4)%N.
Proof.
  apply (recovery_id_offset Sample.Sink Sample.Printf
           Sample.headerByte Sample.signatureRS Sample.world).
  discriminate.
Defined.

(** A signature that is a single line feed. *)
Lemma line_breaks_only_signature_witness :
  base64.DecodeString (String "010"%char "") = inl [] /\
  fst (VerifyBip137SignatureWithParams
         Sample.Sink Sample.Printf Sample.VerifyWithChain
         Sample.address Sample.message (String "010"%char "") MainNetParams
         Sample.world)
  = wrapVerifierAnswer
      (Sample.VerifyWithChain
         (mkVerifierSignedMessage
            Sample.address Sample.message (String "010"%char ""))
         MainNetParams) /\
  calls (snd (VerifyBip137SignatureWithParams
                Sample.Sink Sample.Printf Sample.VerifyWithChain
                Sample.address Sample.message (String "010"%char "")
                MainNetParams Sample.world))
  = calls Sample.world ++
    [CallBase64Decode (String "010"%char "");
     CallVerifyWithChain Sample.address Sample.message (String "010"%char "")
                         (Name MainNetParams)].
Proof.
  apply (line_breaks_only_signature
           Sample.Sink Sample.Printf Sample.VerifyWithChain
           Sample.address Sample.message (String "010"%char "") MainNetParams
           Sample.world).
  - discriminate.
  - discriminate.
  - discriminate.
  - reflexivity.
Defined.

(** The 65 bytes of the example signature dump to 194 characters. *)
Lemma DumpHex_length_witness :
  String.length (DumpHex Sample.sigBytes)
  = (3 * List.length Sample.sigBytes - 1)%nat /\
  DumpHex [] = "<empty>".
Proof. apply (DumpHex_length Sample.sigBytes). discriminate. Defined.

Lemma DumpHex_injective_witness :
  Sample.headerByte :: Sample.signatureRS = Sample.sigBytes.
Proof.
  apply (DumpHex_injective
           (Sample.headerByte :: Sample.signatureRS) Sample.sigBytes).
  reflexivity.
Defined.

Example DumpHex_length_sample :
  String.length (DumpHex Sample.sigBytes) = 194%nat.
Proof. reflexivity. Qed.

Example recovery_id_first_of_class :
  fst (headerBlock Sample.Sink Sample.Printf [x1b] Sample.world)
  = Some (mkHeaderDetails 3 false "P2PKH (uncompressed)").
Proof. reflexivity. Qed.

(** ** A logger that may be nil *)

Section Simulation.

Variable S : Type.
Variable Printf : S -> string -> list Arg -> S.
Variable vwc : verifier_SignedMessage -> Params -> outcome.

Lemma sim_ret {A} (a : A) : simulates (NilLogger.ret S a) (ret a).
Proof. intros w Hu. split; [reflexivity|exact Hu]. Qed.

Lemma sim_bind {A B} (pm : NilLogger.PM S A) (m : M (option S) A)
      (pk : A -> NilLogger.PM S B) (k : A -> M (option S) B) :
  simulates pm m -> (forall a, simulates (pk a) (k a)) ->
  simulates (NilLogger.bind S pm pk) (bind m k).
Proof.
  intros Hm Hk w Hu. unfold NilLogger.bind, bind.
  destruct (Hm w Hu) as [E U]. rewrite E. apply Hk. exact U.
Qed.

Lemma sim_call c : simulates (NilLogger.call S c) (call c).
Proof. intros w Hu. split; [reflexivity|exact Hu]. Qed.

Lemma sim_when b (pm : NilLogger.PM S unit) (m : M (option S) unit) :
  simulates pm m -> simulates (NilLogger.when S b pm) (when b m).
Proof. intros H. destruct b; [exact H|apply sim_ret]. Qed.

Lemma sim_GetLogLevel :
  simulates (NilLogger.GetLogLevel S) (GetLogLevel (option S)).
Proof. intros w Hu. split; [reflexivity|exact Hu]. Qed.

(** A logging function whose threshold is [LogLevelError] or above: in a
    usable state it gets past its guard only when the logger is there. *)
Lemma sim_guarded (t : LogLevel) format args :
  (LogLevelError <= t)%Z ->
  simulates
    (fun w => NilLogger.when S (LogLevel_ge (currentLogLevel w) t)
                (NilLogger.Logger_Printf S Printf format args) w)
    (fun w => when (LogLevel_ge (currentLogLevel w) t)
                (Logger_Printf (option S) (liftPrintf Printf) format args) w).
Proof.
  intros Ht w Hu.
  unfold LogLevel_ge.
  destruct (Z.leb_spec t (currentLogLevel w)) as [Hge|Hlt]; cbn [NilLogger.when when].
  - unfold NilLogger.Logger_Printf, Logger_Printf.
    destruct (Logger w) as [l|] eqn:Hl.
    + split; [reflexivity|]. left. cbn. discriminate.
    + exfalso. destruct Hu as [Hu|Hu]; [apply Hu; exact Hl|].
      unfold LogLevelNone, LogLevelError in *. lia.
  - split; [reflexivity|exact Hu].
Qed.

Lemma sim_LogError format args :
  simulates (NilLogger.LogError S Printf format args)
            (LogError (option S) (liftPrintf Printf) format args).
Proof. apply (sim_guarded LogLevelError). discriminate. Qed.

Lemma sim_LogInfo format args :
  simulates (NilLogger.LogInfo S Printf format args)
            (LogInfo (option S) (liftPrintf Printf) format args).
Proof. apply (sim_guarded LogLevelInfo). discriminate. Qed.

Lemma sim_LogWarning format args :
  simulates (NilLogger.LogWarning S Printf format args)
            (LogWarning (option S) (liftPrintf Printf) format args).
Proof. apply (sim_guarded LogLevelInfo). discriminate. Qed.

Lemma sim_LogDebug format args :
  simulates (NilLogger.LogDebug S Printf format args)
            (LogDebug (option S) (liftPrintf Printf) format args).
Proof. apply (sim_guarded LogLevelDebug). discriminate. Qed.

Lemma sim_LogTrace format args :
  simulates (NilLogger.LogTrace S Printf format args)
            (LogTrace (option S) (liftPrintf Printf) format args).
Proof. apply (sim_guarded LogLevelTrace). discriminate. Qed.

(** Walk two embeddings of the same Go text in step. *)
Ltac sim_step :=
  lazymatch goal with
  | |- simulates (NilLogger.bind _ _ _) (bind _ _) => apply sim_bind; [|intro]
  | |- simulates (NilLogger.ret _ _) (ret _) => apply sim_ret
  | |- simulates (NilLogger.call _ _) (call _) => apply sim_call
  | |- simulates (NilLogger.when _ _ _) (when _ _) => apply sim_when
  | |- simulates (NilLogger.GetLogLevel _) _ => apply sim_GetLogLevel
  | |- simulates (NilLogger.LogError _ _ _ _) _ => apply sim_LogError
  | |- simulates (NilLogger.LogInfo _ _ _ _) _ => apply sim_LogInfo
  | |- simulates (NilLogger.LogWarning _ _ _ _) _ => apply sim_LogWarning
  | |- simulates (NilLogger.LogDebug _ _ _ _) _ => apply sim_LogDebug
  | |- simulates (NilLogger.LogTrace _ _ _ _) _ => apply sim_LogTrace
  | |- simulates (if ?c then _ else _) _ => destruct c
  | |- simulates (match ?x with _ => _ end) _ => destruct x
  end.

Lemma sim_headerBlock sigBytes :
  simulates (NilLogger.headerBlock S Printf sigBytes)
            (headerBlock (option S) (liftPrintf Printf) sigBytes).
Proof.
  unfold NilLogger.headerBlock, headerBlock. cbv zeta.
  destruct sigBytes as [|b rest]; repeat sim_step.
Qed.

Lemma sim_WithParams address message signatureBase64 params :
  simulates
    (NilLogger.VerifyBip137SignatureWithParams
       S Printf vwc address message signatureBase64 params)
    (VerifyBip137SignatureWithParams
       (option S) (liftPrintf Printf) vwc
       address message signatureBase64 params).
Proof.
  unfold NilLogger.VerifyBip137SignatureWithParams,
    VerifyBip137SignatureWithParams.
  cbv zeta.
  repeat first [apply sim_headerBlock | sim_step].
Qed.

Lemma sim_VerifyBip137Signature address message signatureBase64 :
  simulates
    (NilLogger.VerifyBip137Signature
       S Printf vwc address message signatureBase64)
    (VerifyBip137Signature
       (option S) (liftPrintf Printf) vwc address message signatureBase64).
Proof.
  unfold NilLogger.VerifyBip137Signature, VerifyBip137Signature.
  repeat first [apply sim_WithParams | sim_step].
Qed.

End Simulation.

(** C8 (amended): for fixed address, message, signature and network, two
    runs of the address-based verification that differ in the log level, in
    the logger and in what it does with its lines return the same
    (bool, error) result, as long as in each run the logger is there or,
    when it is nil, the level is [LogLevelNone] or below: no such run
    panics, and the level is read only to decide what is logged. *)
Theorem outcome_independent_of_usable_logging :
  forall (S1 S2 : Type)
         (Printf1 : S1 -> string -> list Arg -> S1)
         (Printf2 : S2 -> string -> list Arg -> S2)
         (vwc : verifier_SignedMessage -> Params -> outcome)
         (address message signatureBase64 : string) (params : Params)
         (w1 : World (option S1)) (w2 : World (option S2)),
    usable w1 -> usable w2 ->
    (exists r w1' w2',
        NilLogger.VerifyBip137SignatureWithParams
          S1 Printf1 vwc address message signatureBase64 params w1
        = Some (r, w1') /\
        NilLogger.VerifyBip137SignatureWithParams
          S2 Printf2 vwc address message signatureBase64 params w2
        = Some (r, w2')) /\
    (exists r w1' w2',
        NilLogger.VerifyBip137Signature
          S1 Printf1 vwc address message signatureBase64 w1
        = Some (r, w1') /\
        NilLogger.VerifyBip137Signature
          S2 Printf2 vwc address message signatureBase64 w2
        = Some (r, w2')).
Proof.
  intros S1 S2 Printf1 Printf2 vwc address message signatureBase64 params
         w1 w2 Hu1 Hu2.
  split.
  - destruct (WithParams_uniform vwc address message signatureBase64 params)
      as (r & cs & Hr).
    destruct (sim_WithParams S1 Printf1 vwc address message signatureBase64
                params w1 Hu1) as [E1 _].
    destruct (sim_WithParams S2 Printf2 vwc address message signatureBase64
                params w2 Hu2) as [E2 _].
    rewrite E1, E2.
    exists r. do 2 eexists.
    split.
    + rewrite <- (proj1 (Hr _ (liftPrintf Printf1) w1)),
        <- surjective_pairing.
      reflexivity.
    + rewrite <- (proj1 (Hr _ (liftPrintf Printf2) w2)),
        <- surjective_pairing.
      reflexivity.
  - destruct (WithParams_uniform vwc address message signatureBase64
                MainNetParams) as (r & cs & Hr).
    destruct (sim_VerifyBip137Signature S1 Printf1 vwc address message
                signatureBase64 w1 Hu1) as [E1 _].
    destruct (sim_VerifyBip137Signature S2 Printf2 vwc address message
                signatureBase64 w2 Hu2) as [E2 _].
    rewrite E1, E2.
    exists r. do 2 eexists.
    split.
    + rewrite <- (proj1 (VerifyBip137Signature_run _ _ _ _ _ _ _ _
                           (Hr _ (liftPrintf Printf1)) w1)),
        <- surjective_pairing.
      reflexivity.
    + rewrite <- (proj1 (VerifyBip137Signature_run _ _ _ _ _ _ _ _
                           (Hr _ (liftPrintf Printf2)) w2)),
        <- surjective_pairing.
      reflexivity.
Qed.

(** The valid vector of the package tests, once with a logger at level
    Info, once with no logger and logging off. *)
Lemma outcome_independent_of_usable_logging_witness :
  (exists r w1' w2',
      NilLogger.VerifyBip137SignatureWithParams
        Sample.Sink Sample.Printf Sample.VerifyWithChain
        Sample.testAddress Sample.message Sample.testSignature MainNetParams
        (mkWorld LogLevelInfo (Some []) []) = Some (r, w1') /\
      NilLogger.VerifyBip137SignatureWithParams
        Sample.Sink Sample.Printf Sample.VerifyWithChain
        Sample.testAddress Sample.message Sample.testSignature MainNetParams
        (mkWorld LogLevelNone None []) = Some (r, w2')) /\
  (exists r w1' w2',
      NilLogger.VerifyBip137Signature
        Sample.Sink Sample.Printf Sample.VerifyWithChain
        Sample.testAddress Sample.message Sample.testSignature
        (mkWorld LogLevelInfo (Some []) []) = Some (r, w1') /\
      NilLogger.VerifyBip137Signature
        Sample.Sink Sample.Printf Sample.VerifyWithChain
        Sample.testAddress Sample.message Sample.testSignature
        (mkWorld LogLevelNone None []) = Some (r, w2')).
Proof.
  apply (outcome_independent_of_usable_logging
           Sample.Sink Sample.Sink Sample.Printf Sample.Printf
           Sample.VerifyWithChain
           Sample.testAddress Sample.message Sample.testSignature
           MainNetParams
           (mkWorld LogLevelInfo (Some []) [])
           (mkWorld LogLevelNone None [])).
  - left. discriminate.
  - right. cbn. lia.
Defined.

(** C8, as stated, fails when the logger is absent. With [Logger] nil and
    the default level Info, the empty address of the package tests makes
    the run panic at [LogError], where a run with a logger returns
    [(false, ErrEmptyAddress)]; and without a logger the level decides:
    at [LogLevelNone] the same call returns that result. The valid vector
    panics likewise at the first [LogInfo] of [VerifyBip137Signature]. *)
Lemma nil_logger_panics_when_it_logs :
  NilLogger.VerifyBip137SignatureWithParams
    Sample.Sink Sample.Printf Sample.VerifyWithChain
    "" "Test message" "Base64Signature==" MainNetParams
    (mkWorld LogLevelInfo None []) = None /\
  option_map fst
    (NilLogger.VerifyBip137SignatureWithParams
       Sample.Sink Sample.Printf Sample.VerifyWithChain
       "" "Test message" "Base64Signature==" MainNetParams
       (mkWorld LogLevelInfo (Some []) []))
  = Some (false, Some ErrEmptyAddress) /\
  option_map fst
    (NilLogger.VerifyBip137SignatureWithParams
       Sample.Sink Sample.Printf Sample.VerifyWithChain
       "" "Test message" "Base64Signature==" MainNetParams
       (mkWorld LogLevelNone None []))
  = Some (false, Some ErrEmptyAddress) /\
  NilLogger.VerifyBip137Signature
    Sample.Sink Sample.Printf Sample.VerifyWithChain
    Sample.testAddress Sample.message Sample.testSignature
    (mkWorld LogLevelInfo None []) = None /\
  option_map fst
    (NilLogger.VerifyBip137Signature
       Sample.Sink Sample.Printf Sample.VerifyWithChain
       Sample.testAddress Sample.message Sample.testSignature
       (mkWorld LogLevelInfo (Some []) []))
  = Some (true, None).
Proof. repeat split; reflexivity. Qed.

(** ** The package on the BitonicNL verifier *)

Section OnBitonicNL.

Variable Sink : Type.
Variable Sink_Printf : Sink -> string -> list Arg -> Sink.
Variable checkAddress : string -> Params -> string + error.
Variable generatedAddress : list byte -> string -> Params -> string + error.

(** On a payload of the wrong length the verifier answers with the error
    of the address or, the address passed, with the one of the length; it
    has not looked at what recovers the key. *)
Lemma BitonicNL_wrong_length
      (recovery : list byte -> string -> Params -> string + error)
      sm net sigBytes :
  base64.DecodeString (verifier_Signature sm) = inl sigBytes ->
  List.length sigBytes <> 65%nat ->
  BitonicNL.VerifyWithChain checkAddress recovery sm net
  = (false,
     Some (match checkAddress (verifier_Address sm) net with
           | inr err => err
           | inl _ => BitonicNL.wrongLength (List.length sigBytes)
           end)).
Proof.
  intros Hd Hl. unfold BitonicNL.VerifyWithChain.
  destruct (checkAddress _ _); [|reflexivity].
  rewrite Hd. destruct (Nat.eqb_spec (List.length sigBytes) 65);
    [contradiction|reflexivity].
Qed.

Lemma BitonicNL_mismatch sm net sigBytes expected generated :
  checkAddress (verifier_Address sm) net = inl expected ->
  base64.DecodeString (verifier_Signature sm) = inl sigBytes ->
  List.length sigBytes = 65%nat ->
  generatedAddress sigBytes (verifier_Message sm) net = inl generated ->
  generated <> expected ->
  BitonicNL.VerifyWithChain checkAddress generatedAddress sm net
  = (false, Some (BitonicNL.mismatch generated expected)).
Proof.
  intros Ha Hd Hl Hg Hne. unfold BitonicNL.VerifyWithChain.
  rewrite Ha, Hd, Hl, Hg. cbn [Nat.eqb negb].
  rewrite (proj2 (String.eqb_neq _ _) Hne). reflexivity.
Qed.

(** C3 (amended): the package checks no length itself and has no error
    type for it; the verifier it calls does the rejecting. For every
    non-empty address, message and signature whose base64 payload is not 65
    bytes long, the address-based verification fails with [false] and the
    verifier's error wrapped as "signature verification error": the error
    "wrong signature length: n instead of 65" when the address passes the
    verifier's check, which comes first, and the error of that check
    otherwise. No key has been recovered and no address compared: the
    result does not depend on what would do it. *)
Theorem wrong_length_rejected_by_verifier
    address message signatureBase64 params sigBytes w :
  address <> "" -> message <> "" -> signatureBase64 <> "" ->
  base64.DecodeString signatureBase64 = inl sigBytes ->
  List.length sigBytes <> 65%nat ->
  fst (VerifyBip137SignatureWithParams
         Sink Sink_Printf
         (BitonicNL.VerifyWithChain checkAddress generatedAddress)
         address message signatureBase64 params w)
  = (false,
     Some (Errorf_w "signature verification error"
             (match checkAddress address params with
              | inr err => err
              | inl _ => BitonicNL.wrongLength (List.length sigBytes)
              end))) /\
  calls (snd (VerifyBip137SignatureWithParams
                Sink Sink_Printf
                (BitonicNL.VerifyWithChain checkAddress generatedAddress)
                address message signatureBase64 params w))
  = calls w ++
    [CallBase64Decode signatureBase64;
     CallVerifyWithChain address message signatureBase64 (Name params)] /\
  forall recovery : list byte -> string -> Params -> string + error,
    fst (VerifyBip137SignatureWithParams
           Sink Sink_Printf
           (BitonicNL.VerifyWithChain checkAddress recovery)
           address message signatureBase64 params w)
    = fst (VerifyBip137SignatureWithParams
             Sink Sink_Printf
             (BitonicNL.VerifyWithChain checkAddress generatedAddress)
             address message signatureBase64 params w).
Proof.
  intros Ha Hm Hs Hd Hl.
  assert (Hrun :
            forall g,
              fst (VerifyBip137SignatureWithParams
                     Sink Sink_Printf (BitonicNL.VerifyWithChain checkAddress g)
                     address message signatureBase64 params w)
              = (false,
                 Some (Errorf_w "signature verification error"
                         (match checkAddress address params with
                          | inr err => err
                          | inl _ =>
                              BitonicNL.wrongLength (List.length sigBytes)
                          end)))).
  { intro g.
    rewrite (proj1 (WithParams_decoded
                      Sink Sink_Printf (BitonicNL.VerifyWithChain checkAddress g)
                      address message signatureBase64 params sigBytes
                      Ha Hm Hs Hd w)).
    rewrite (BitonicNL_wrong_length
               g (mkVerifierSignedMessage address message signatureBase64)
               params sigBytes Hd Hl).
    reflexivity. }
  split; [apply Hrun|]. split.
  - apply (WithParams_decoded
             Sink Sink_Printf
             (BitonicNL.VerifyWithChain checkAddress generatedAddress)
             address message signatureBase64 params sigBytes Ha Hm Hs Hd w).
  - intro g. rewrite !Hrun. reflexivity.
Qed.

End OnBitonicNL.

Example wrong_length_error_text :
  Error (Errorf_w "signature verification error" (BitonicNL.wrongLength 3))
  = "signature verification error: wrong signature length: 3 instead of 65".
Proof. reflexivity. Qed.

(** A payload of three bytes for the address of the example. *)
Lemma wrong_length_rejected_by_verifier_witness :
  fst (VerifyBip137SignatureWithParams
         Sample.Sink Sample.Printf Sample.VerifyWithChain
         Sample.address Sample.message "AAAA" MainNetParams Sample.world)
  = (false,
     Some (Errorf_w "signature verification error"
             (Errorf "wrong signature length: 3 instead of 65"))).
Proof.
  refine (proj1 (wrong_length_rejected_by_verifier
                   Sample.Sink Sample.Printf
                   Sample.checkAddress Sample.generatedAddress
                   Sample.address Sample.message "AAAA" MainNetParams
                   [x00; x00; x00] Sample.world _ _ _ _ _)).
  - discriminate.
  - discriminate.
  - discriminate.
  - reflexivity.
  - discriminate.
Defined.

(** C3, as stated, fails for an address that the verifier cannot decode:
    the same payload of three bytes is then turned away with the error of
    the address, which the verifier checks first, and the wrong length is
    never reported. *)
Lemma wrong_length_hidden_by_address_error :
  base64.DecodeString "AAAA" = inl [x00; x00; x00] /\
  fst (VerifyBip137SignatureWithParams
         Sample.Sink Sample.Printf Sample.VerifyWithChain
         "not-an-address" "Test message" "AAAA" MainNetParams Sample.world)
  = (false,
     Some (Errorf_w "signature verification error"
             (Errorf_w "could not decode address"
                (ExternalError "decoded address is of unknown format")))) /\
  fst (VerifyBip137SignatureWithParams
         Sample.Sink Sample.Printf Sample.VerifyWithChain
         "not-an-address" "Test message" "AAAA" MainNetParams Sample.world)
  <> (false,
      Some (Errorf_w "signature verification error"
              (BitonicNL.wrongLength 3))).
Proof.
  split; [reflexivity|]. split; [reflexivity|].
  vm_compute. discriminate.
Qed.

Section Definitive.

Variable Sink : Type.
Variable Sink_Printf : Sink -> string -> list Arg -> Sink.
Variable PublicKey : Type.
Variable SerializeCompressed : PublicKey -> list byte.
Variable Hash160 : list byte -> list byte.
Variable AddressPubKeyHash : Type.
Variable NewAddressPubKeyHash :
  list byte -> Params -> AddressPubKeyHash + error.
Variable EncodeAddress : AddressPubKeyHash -> string.
Variable verifier_VerifyWithChain :
  verifier_SignedMessage -> Params -> outcome.
Variable verifier_Verify : verifier_SignedMessage -> outcome.
Variable EnhancedVerifyBip137SignatureWithPubKey :
  PublicKey -> string -> string -> M Sink outcome.
Variable checkAddress : string -> Params -> string + error.
Variable generatedAddress : list byte -> string -> Params -> string + error.

(** C7 (amended): every result is a verdict without error or an error with
    the verdict [false], never an error next to [true]: for the
    address-based entry points, the network-parameterised public-key entry
    point and both context wrappers whatever the verifier answers, and for
    [VerifyBip137SignatureWithPubKey] as soon as the enhanced implementation
    keeps to the rule. A mismatch between the claimed address and the one
    generated from the recovered key is not [(false, nil)]: the verifier
    reports it as an error, and the address-based verification returns
    [false] with that error wrapped as "signature verification error". *)
Theorem outcomes_definitive_mismatch_is_error :
  (forall address message signatureBase64 params w,
      definitive (fst (VerifyBip137SignatureWithParams
                         Sink Sink_Printf verifier_VerifyWithChain
                         address message signatureBase64 params w)) = true) /\
  (forall address message signatureBase64 w,
      definitive (fst (VerifyBip137Signature
                         Sink Sink_Printf verifier_VerifyWithChain
                         address message signatureBase64 w)) = true) /\
  (forall ctx msg fired w,
      definitive (fst (VerifyBip137SignatureWithContext
                         Sink Sink_Printf verifier_Verify ctx msg fired w))
      = true) /\
  (forall pubKey message signatureBase64 params w,
      definitive (fst (VerifyBip137SignatureWithPubKeyAndParams
                         Sink Sink_Printf PublicKey SerializeCompressed
                         Hash160 AddressPubKeyHash NewAddressPubKeyHash
                         EncodeAddress verifier_VerifyWithChain
                         pubKey message signatureBase64 params w)) = true) /\
  (forall ctx pubKey message signatureBase64 fired w,
      definitive (fst (VerifyBip137SignatureWithPubKeyAndContext
                         Sink Sink_Printf PublicKey SerializeCompressed
                         EnhancedVerifyBip137SignatureWithPubKey
                         ctx pubKey message signatureBase64 fired w))
      = true) /\
  ((forall pk message signatureBase64 w,
       definitive (fst (EnhancedVerifyBip137SignatureWithPubKey
                          pk message signatureBase64 w)) = true) ->
   forall pubKey message signatureBase64 w,
     definitive (fst (VerifyBip137SignatureWithPubKey
                        Sink Sink_Printf PublicKey SerializeCompressed
                        EnhancedVerifyBip137SignatureWithPubKey
                        pubKey message signatureBase64 w)) = true) /\
  (forall address message signatureBase64 params sigBytes
          expected generated w,
      address <> "" -> message <> "" -> signatureBase64 <> "" ->
      base64.DecodeString signatureBase64 = inl sigBytes ->
      List.length sigBytes = 65%nat ->
      checkAddress address params = inl expected ->
      generatedAddress sigBytes message params = inl generated ->
      generated <> expected ->
      fst (VerifyBip137SignatureWithParams
             Sink Sink_Printf
             (BitonicNL.VerifyWithChain checkAddress generatedAddress)
             address message signatureBase64 params w)
      = (false,
         Some (Errorf_w "signature verification error"
                 (BitonicNL.mismatch generated expected)))).
Proof.
  pose proof (results_definitive
                Sink Sink_Printf PublicKey SerializeCompressed Hash160
                AddressPubKeyHash NewAddressPubKeyHash EncodeAddress
                verifier_VerifyWithChain verifier_Verify
                EnhancedVerifyBip137SignatureWithPubKey)
    as (H1 & H2 & H3 & H4 & H5 & H6).
  repeat apply conj; auto.
  intros address message signatureBase64 params sigBytes expected generated w
         Ha Hm Hs Hd Hl Hc Hg Hne.
  rewrite (proj1 (WithParams_decoded
                    Sink Sink_Printf
                    (BitonicNL.VerifyWithChain checkAddress generatedAddress)
                    address message signatureBase64 params sigBytes
                    Ha Hm Hs Hd w)).
  rewrite (BitonicNL_mismatch
             checkAddress generatedAddress
             (mkVerifierSignedMessage address message signatureBase64)
             params sigBytes expected generated Hc Hd Hl Hg Hne).
  reflexivity.
Qed.

End Definitive.

(** The example signature against the address of the test vector. *)
Lemma outcomes_definitive_mismatch_is_error_witness :
  fst (VerifyBip137SignatureWithParams
         Sample.Sink Sample.Printf Sample.VerifyWithChain
         Sample.testAddress Sample.message Sample.signature MainNetParams
         Sample.world)
  = (false,
     Some (Errorf_w "signature verification error"
             (BitonicNL.mismatch Sample.address Sample.testAddress))) /\
  definitive
    (fst (VerifyBip137SignatureWithPubKey
            Sample.Sink Sample.Printf Sample.PublicKey
            Sample.SerializeCompressed Sample.EnhancedVerify
            (Some Sample.pubKey) Sample.message Sample.signature
            Sample.world)) = true.
Proof.
  pose proof (outcomes_definitive_mismatch_is_error
                Sample.Sink Sample.Printf Sample.PublicKey
                Sample.SerializeCompressed Sample.Hash160
                Sample.AddressPubKeyHash Sample.NewAddressPubKeyHash
                Sample.EncodeAddress Sample.VerifyWithChain Sample.Verify
                Sample.EnhancedVerify
                Sample.checkAddress Sample.generatedAddress)
    as (_ & _ & _ & _ & _ & Hpub & Hmismatch).
  split.
  - apply (Hmismatch Sample.testAddress Sample.message Sample.signature
             MainNetParams Sample.sigBytes Sample.testAddress Sample.address
             Sample.world).
    + discriminate.
    + discriminate.
    + discriminate.
    + reflexivity.
    + reflexivity.
    + reflexivity.
    + reflexivity.
    + discriminate.
  - apply Hpub. exact Sample_EnhancedVerify_definitive.
Defined.

(** C7, as stated, fails on a mismatch: the example signature, which is
    that of the key of 1C9Y..., checked against the address 194v... of the
    test vector, comes back as an error, not as [(false, nil)]. *)
Lemma address_mismatch_is_surfaced_as_error :
  fst (VerifyBip137SignatureWithParams
         Sample.Sink Sample.Printf Sample.VerifyWithChain
         Sample.testAddress Sample.message Sample.signature MainNetParams
         Sample.world)
  = (false,
     Some (Errorf_w "signature verification error"
             (Errorf "generated address '1C9YVXK12TBeDMJEFFMuTZMHMQgcRAuR1E' does not match expected address '194vDb9xwY6XQi5bLa7FRPBewJdUqympZ9'"))) /\
  fst (VerifyBip137SignatureWithParams
         Sample.Sink Sample.Printf Sample.VerifyWithChain
         Sample.testAddress Sample.message Sample.signature MainNetParams
         Sample.world)
  <> (false, None).
Proof. split; [reflexivity|]. vm_compute. discriminate. Qed.

Section Derivation.

Variable Sink : Type.
Variable Sink_Printf : Sink -> string -> list Arg -> Sink.
Variable PublicKey : Type.
Variable SerializeCompressed : PublicKey -> list byte.
Variable Hash160 : list byte -> list byte.
Variable AddressPubKeyHash : Type.
Variable NewAddressPubKeyHash :
  list byte -> Params -> AddressPubKeyHash + error.
Variable EncodeAddress : AddressPubKeyHash -> string.
Variable verifier_VerifyWithChain :
  verifier_SignedMessage -> Params -> outcome.

(** X8: the derivation of the address cannot fail. [btcutil.Hash160]
    yields 20 bytes and [btcutil.NewAddressPubKeyHash] accepts every hash of
    20 bytes; so, whatever the key, message, signature and network, the
    public-key entry point never returns the error "failed to derive
    address from public key". *)
Theorem pubkey_derivation_never_fails
    pubKey message signatureBase64 params err w :
  (forall data, List.length (Hash160 data) = 20%nat) ->
  (forall pkHash net,
      List.length pkHash = 20%nat ->
      exists addr, NewAddressPubKeyHash pkHash net = inl addr) ->
  fst (VerifyBip137SignatureWithPubKeyAndParams
         Sink Sink_Printf PublicKey SerializeCompressed Hash160
         AddressPubKeyHash NewAddressPubKeyHash EncodeAddress
         verifier_VerifyWithChain
         pubKey message signatureBase64 params w)
  <> (false,
      Some (Errorf_w "failed to derive address from public key" err)).
Proof.
  intros Hhash Hnew.
  destruct pubKey as [pk|].
  2:{ rewrite (proj1 (WithPubKeyAndParams_nil _ _ _ _ _ _ _ _ _
                        message signatureBase64 params w)).
      discriminate. }
  destruct (String.eqb_spec message "") as [->|Hm].
  { rewrite (proj1 (WithPubKeyAndParams_empty_message _ _ _ _ _ _ _ _ _
                      pk signatureBase64 params w)).
    discriminate. }
  destruct (String.eqb_spec signatureBase64 "") as [->|Hs].
  { rewrite (proj1 (WithPubKeyAndParams_empty_signature _ _ _ _ _ _ _ _ _
                      pk message params Hm w)).
    discriminate. }
  destruct (base64.DecodeString signatureBase64) as [sigBytes|e] eqn:Hd.
  2:{ rewrite (proj1 (WithPubKeyAndParams_bad_base64 _ _ _ _ _ _ _ _ _
                        pk message signatureBase64 params e Hm Hs Hd w)).
      discriminate. }
  destruct (Hnew (Hash160 (SerializeCompressed pk)) params (Hhash _))
    as [addr Hn].
  assert (Hsame :
            forall r cs,
              returns (VerifyBip137SignatureWithParams
                         Sink Sink_Printf verifier_VerifyWithChain
                         (EncodeAddress addr) message signatureBase64 params)
                      r cs ->
              fst (VerifyBip137SignatureWithPubKeyAndParams
                     Sink Sink_Printf PublicKey SerializeCompressed Hash160
                     AddressPubKeyHash NewAddressPubKeyHash EncodeAddress
                     verifier_VerifyWithChain
                     (Some pk) message signatureBase64 params w) = r).
  { intros r cs Hr.
    apply (WithPubKeyAndParams_derives _ _ _ _ _ _ _ _ _
             pk message signatureBase64 params sigBytes addr r cs
             Hm Hs Hd Hn Hr w). }
  destruct (String.eqb_spec (EncodeAddress addr) "") as [He|He].
  - rewrite (Hsame _ _ ltac:(rewrite He; apply WithParams_empty_address)).
    discriminate.
  - rewrite (Hsame _ _ (WithParams_decoded _ _ _ _ _ _ _ sigBytes
                          He Hm Hs Hd)).
    unfold wrapVerifierAnswer.
    destruct (snd (verifier_VerifyWithChain _ _)); discriminate.
Qed.

End Derivation.

Lemma Sample_Hash160_length data : List.length (Sample.Hash160 data) = 20%nat.
Proof.
  unfold Sample.Hash160.
  destruct (Sample.bytes_eqb data Sample.pubKey); reflexivity.
Qed.

Lemma Sample_NewAddressPubKeyHash_total pkHash net :
  List.length pkHash = 20%nat ->
  exists addr, Sample.NewAddressPubKeyHash pkHash net = inl addr.
Proof.
  intros H. unfold Sample.NewAddressPubKeyHash. rewrite H.
  exists pkHash. reflexivity.
Qed.

(** The example of the repository. *)
Lemma pubkey_derivation_never_fails_witness :
  fst (VerifyBip137SignatureWithPubKeyAndParams
         Sample.Sink Sample.Printf Sample.PublicKey Sample.SerializeCompressed
         Sample.Hash160 Sample.AddressPubKeyHash Sample.NewAddressPubKeyHash
         Sample.EncodeAddress Sample.VerifyWithChain
         (Some Sample.pubKey) Sample.message Sample.signature MainNetParams
         Sample.world)
  <> (false,
      Some (Errorf_w "failed to derive address from public key"
                     (ExternalError "pkHash must be 20 bytes"))).
Proof.
  apply (pubkey_derivation_never_fails
           Sample.Sink Sample.Printf Sample.PublicKey
           Sample.SerializeCompressed Sample.Hash160 Sample.AddressPubKeyHash
           Sample.NewAddressPubKeyHash Sample.EncodeAddress
           Sample.VerifyWithChain
           (Some Sample.pubKey) Sample.message Sample.signature MainNetParams
           (ExternalError "pkHash must be 20 bytes") Sample.world).
  - exact Sample_Hash160_length.
  - exact Sample_NewAddressPubKeyHash_total.
Defined.
